(** * Kinematics of the 6-joint manipulator of [Assignment2/Danko_Danila_HA2.py]

    A shallow embedding of the numeric core of the script: the
    Denavit-Hartenberg table ([get_dh], [ts_num]), forward kinematics
    ([get_fk_solution]), the geometric Jacobian ([jacobian]), the pose
    decomposition ([decompose_transformation]) and the vector field handed to
    the integrator ([state_space] inside [solve_motion]).

    Number model.  The script computes with numpy [float64]; here a scalar is
    a real number of the Standard Library ([R]) and [np.cos], [np.sin],
    [np.abs] are [cos], [sin], [Rabs]: arithmetic is exact, rounding, signed
    zeros, infinities and NaN are not modelled.  [np.arctan2] is defined below
    from [atan].  A comparison of the script is a [bool] obtained from the
    decision procedures of [R].

    Array model.  A one-dimensional [ndarray] is a [list R], a two-dimensional
    one is the list of its rows.  Operations that raise in Python return
    [Raise] with the kind of exception.

    Left out: the symbolic chain [get_fk_symb], the determinant test
    [check_singular], the call of the integrator at load time and the
    plot. *)

From Stdlib Require Import String.
From Stdlib Require Import Reals Lra Lia Psatz List Bool.
Import ListNotations.
Open Scope R_scope.

(** ** Exceptions *)

Inductive exn : Type :=
| IndexError
| ValueError
| TypeError.

Inductive result (A : Type) : Type :=
| Ok (a : A)
| Raise (e : exn).

Arguments Ok {A} a.
Arguments Raise {A} e.

Definition bind {A B : Type} (m : result A) (f : A -> result B) : result B :=
  match m with
  | Ok a => f a
  | Raise e => Raise e
  end.

Notation "x <- m ;; f" := (bind m (fun x => f))
  (at level 61, m at next level, right associativity).

Fixpoint mapM {A B : Type} (f : A -> result B) (l : list A) : result (list B) :=
  match l with
  | [] => Ok []
  | a :: l' => b <- f a ;; bs <- mapM f l' ;; Ok (b :: bs)
  end.

(** ** Python lists and numpy arrays *)

Definition vec : Type := list R.
Definition mat : Type := list (list R).

(** [l[i]] for [i >= 0]. *)
Definition getitem {A : Type} (l : list A) (i : nat) : result A :=
  match nth_error l i with
  | Some a => Ok a
  | None => Raise IndexError
  end.

(** [l[-1]]. *)
Definition getlast {A : Type} (l : list A) : result A :=
  match rev l with
  | a :: _ => Ok a
  | [] => Raise IndexError
  end.

(** [l[i] = x] for [i >= 0]. *)
Fixpoint setitem {A : Type} (l : list A) (i : nat) (x : A) : result (list A) :=
  match l, i with
  | [], _ => Raise IndexError
  | _ :: l', O => Ok (x :: l')
  | a :: l', S i' => r <- setitem l' i' x ;; Ok (a :: r)
  end.

(** [W[i,j]]. *)
Definition mat_get (W : mat) (i j : nat) : result R :=
  row <- getitem W i ;; getitem row j.

(** [M[:3,j]]: column [j] of the first three rows. *)
Definition col3 (M : mat) (j : nat) : result vec :=
  mapM (fun row => getitem row j) (firstn 3 M).

(** [np.eye(d)]. *)
Definition eye (d : nat) : mat :=
  map (fun i => map (fun j => if Nat.eqb i j then 1 else 0) (seq 0 d)) (seq 0 d).

(** [np.zeros((r,c))]. *)
Definition zeros (r c : nat) : mat := repeat (repeat 0 c) r.

(** Inner product of two rows of equal length. *)
Fixpoint dotv (u v : vec) : R :=
  match u, v with
  | a :: u', b :: v' => a * b + dotv u' v'
  | _, _ => 0
  end.

Definition column (B : mat) (j : nat) : vec := map (fun row => nth j row 0) B.

Definition ncols (B : mat) : nat := length (hd [] B).

(** Matrix product ([*] of sympy, [.dot] of numpy) of two matrices whose inner
    dimensions agree; the script only multiplies 4x4 matrices. *)
Definition matmul (A B : mat) : mat :=
  map (fun row => map (fun j => dotv row (column B j)) (seq 0 (ncols B))) A.

(** [A.dot(v)] for a two-dimensional [A] and a one-dimensional [v]: the shapes
    must agree. *)
Definition mat_vec (A : mat) (v : vec) : result vec :=
  if forallb (fun row => Nat.eqb (length row) (length v)) A
  then Ok (map (fun row => dotv row v) A)
  else Raise ValueError.

(** [u - v] on one-dimensional arrays, with numpy's broadcasting of an array
    of length one. *)
Definition vsub (u v : vec) : result vec :=
  if Nat.eqb (length u) (length v)
  then Ok (map (fun p => fst p - snd p) (combine u v))
  else match u, v with
       | [a], _ => Ok (map (fun b => a - b) v)
       | _, [b] => Ok (map (fun a => a - b) u)
       | _, _ => Raise ValueError
       end.

(** [v * c] for a Python number [c]. *)
Definition vscale (v : vec) (c : R) : vec := map (fun a => a * c) v.

(** [np.cross] of two vectors of dimension three. *)
Definition cross (u v : vec) : result vec :=
  match u, v with
  | [u0; u1; u2], [v0; v1; v2] =>
      Ok [u1 * v2 - u2 * v1; u2 * v0 - u0 * v2; u0 * v1 - u1 * v0]
  | _, _ => Raise ValueError
  end.

(** [np.arctan2(y, x)]: the angle of the point [(x, y)], in [(-PI, PI]];
    [0] at the origin. *)
Definition arctan2 (y x : R) : R :=
  if Rlt_dec 0 x then atan (y / x)
  else if Rlt_dec x 0 then
         if Rle_dec 0 y then atan (y / x) + PI else atan (y / x) - PI
  else if Rlt_dec 0 y then PI / 2
  else if Rlt_dec y 0 then - (PI / 2)
  else 0.

(** ** Constants of the script *)

Definition dim_h : nat := 4.
Definition n : nat := 6.
Definition link_lengths : vec := [1; 1; 1; 1; 1; 1].
Definition input : vec := [0.1; 0.1; 0.1; 0.1; 0.1; 0.1].
Definition input_initial : vec := [0; 0; 0; 0; 0; 0].

Definition l1 : R := nth 0 link_lengths 0.
Definition l2 : R := nth 1 link_lengths 0.
Definition l3 : R := nth 2 link_lengths 0.
Definition l4 : R := nth 3 link_lengths 0.
Definition l5 : R := nth 4 link_lengths 0.
Definition l6 : R := nth 5 link_lengths 0.

(** ** Symbolic rotations and translations

    A sympy matrix in the symbol [q] (or [d]) is the function of that symbol;
    [subs] is application. *)

Inductive axis : Type := Ax_x | Ax_y | Ax_z.

(** [get_rot_symb()[axis]]: the 3x3 rotation inserted into the 4x4 identity. *)
Definition rot_symb (a : axis) (q : R) : mat :=
  let c := cos q in
  let s := sin q in
  match a with
  | Ax_z => [[c; - s; 0; 0];
             [s; c; 0; 0];
             [0; 0; 1; 0];
             [0; 0; 0; 1]]
  | Ax_y => [[c; 0; s; 0];
             [0; 1; 0; 0];
             [- s; 0; c; 0];
             [0; 0; 0; 1]]
  | Ax_x => [[1; 0; 0; 0];
             [0; c; - s; 0];
             [0; s; c; 0];
             [0; 0; 0; 1]]
  end.

(** [get_trans_symb()[axis]]: the translation inserted into the 4x4 identity. *)
Definition trans_symb (a : axis) (d : R) : mat :=
  match a with
  | Ax_z => [[1; 0; 0; 0];
             [0; 1; 0; 0];
             [0; 0; 1; d];
             [0; 0; 0; 1]]
  | Ax_y => [[1; 0; 0; 0];
             [0; 1; 0; d];
             [0; 0; 1; 0];
             [0; 0; 0; 1]]
  | Ax_x => [[1; 0; 0; d];
             [0; 1; 0; 0];
             [0; 0; 1; 0];
             [0; 0; 0; 1]]
  end.

(** The dictionaries given to [get_T]: [{"T": "R", "axis", "angle"}] and
    [{"T": "T", "axis", "distance"}]. *)
Inductive targ : Type :=
| TR (a : axis) (angle : R)
| TT (a : axis) (distance : R).

Definition get_T (arg : targ) : mat :=
  match arg with
  | TR a angle => rot_symb a angle
  | TT a distance => trans_symb a distance
  end.

(** The loop [for i in range(1, len(t)): t[i] = t[i-1] * t[i]] followed by
    [t[-1]]: [acc] is [t[i-1]], the result is the last running product. *)
Fixpoint running_product (acc : mat) (rest : list mat) : mat :=
  match rest with
  | [] => acc
  | m :: rest' => running_product (matmul acc m) rest'
  end.

(** [compose_T_symb(args)] for a list [arg :: args], which is never empty in
    the script; [sp.simplify] does not change the value of the matrix. *)
Definition compose_T_symb (arg : targ) (args : list targ) : mat :=
  running_product (get_T arg) (map get_T args).

(** [get_dh]: the list [T12, T23, T34, T45, T56, T6e], each as a function of
    its joint symbol ([use_different_qs] only renames that symbol). *)
Definition get_dh : list (R -> mat) :=
  [ (fun q1 => compose_T_symb (TR Ax_z q1)
                 [TT Ax_z l1; TT Ax_x 0; TR Ax_x (PI / 2)]);
    (fun q2 => compose_T_symb (TR Ax_z q2)
                 [TT Ax_z 0; TT Ax_x l2; TR Ax_x 0]);
    (fun q3 => compose_T_symb (TR Ax_z q3)
                 [TT Ax_z 0; TT Ax_x l3; TR Ax_x (- PI / 2)]);
    (fun q4 => compose_T_symb (TR Ax_z q4)
                 [TT Ax_z l4; TT Ax_x 0; TR Ax_x (- PI / 2)]);
    (fun q5 => compose_T_symb (TR Ax_z (q5 - PI / 2))
                 [TT Ax_z 0; TT Ax_x 0; TR Ax_x (- PI / 2)]);
    (fun q6 => compose_T_symb (TR Ax_z q6)
                 [TT Ax_z (l5 + l6); TT Ax_x 0; TR Ax_x 0]) ].

(** [ts_num]: the lambdified transitions. *)
Definition ts_num : list (R -> mat) := get_dh.

(** ** Forward kinematics *)

(** What [get_fk_solution] returns: the end-effector frame, the list of
    frames, or [None] for any other flag. *)
Inductive fk_value : Type :=
| EE (T : mat)
| Full (ts : list mat)
| PyNone.

(** The body of [for i in range(n-1): ts[i+1] = ts[i].dot(ts[i+1])]. *)
Fixpoint fk_loop (idx : list nat) (ts : list mat) : result (list mat) :=
  match idx with
  | [] => Ok ts
  | i :: idx' =>
      a <- getitem ts i ;;
      b <- getitem ts (i + 1) ;;
      ts' <- setitem ts (i + 1) (matmul a b) ;;
      fk_loop idx' ts'
  end.

Definition get_fk_solution (qs : vec) (flag : string) : result fk_value :=
  let ts := map (fun tq => fst tq (snd tq)) (combine ts_num qs) in
  ts' <- fk_loop (seq 0 (n - 1)) ts ;;
  if String.eqb flag "ee" then T <- getlast ts' ;; Ok (EE T)
  else if String.eqb flag "full" then Ok (Full ts')
  else Ok PyNone.

Definition eps : R := 0.000000001.

(** [eq(a,b)] of the script: equality up to [eps]. *)
Definition eq_eps (a b : R) : bool :=
  if Rlt_dec (Rabs (a - b)) eps then true else false.

(** ** The geometric Jacobian *)

Definition base_default : mat := eye dim_h.

(** [J[r, i] = v[0]], [J[r+1, i] = v[1]], ... *)
Fixpoint set_col (J : mat) (r i : nat) (v : vec) : result mat :=
  match v with
  | [] => Ok J
  | x :: v' =>
      row <- getitem J r ;;
      row' <- setitem row i x ;;
      J' <- setitem J r row' ;;
      set_col J' (S r) i v'
  end.

(** [J[lo:hi, i] = v]: [v] has [hi - lo] entries, or one entry that is
    broadcast. *)
Definition assign_col (J : mat) (lo hi i : nat) (v : vec) : result mat :=
  if Nat.eqb (length v) (hi - lo) then set_col J lo i v
  else match v with
       | [x] => set_col J lo i (repeat x (hi - lo))
       | _ => Raise ValueError
       end.

(** The body of [for i in range(6)] in [jacobian]. *)
Fixpoint jacobian_loop (idx : list nat) (fks : list mat) (ee J : mat)
  : result mat :=
  match idx with
  | [] => Ok J
  | i :: idx' =>
      Fi <- getitem fks i ;;
      z <- col3 Fi 2 ;;
      o_ee <- col3 ee 3 ;;
      o_i <- col3 Fi 3 ;;
      o_diff <- vsub o_ee o_i ;;
      c <- cross z o_diff ;;
      J1 <- assign_col J 0 3 i c ;;
      J2 <- assign_col J1 3 n i z ;;
      jacobian_loop idx' fks ee J2
  end.

Definition jacobian (frames : list mat) : result mat :=
  let fks := base_default :: frames in
  ee <- getlast fks ;;
  jacobian_loop (seq 0 6) fks ee (zeros n n).

(** [cartesian_velocity]. *)
Definition cartesian_velocity (J : mat) (q_dot : vec) : result vec :=
  mat_vec J q_dot.

(** ** Pose decomposition *)

(** The inner function [go(m2)] of [decompose_transformation(W)]. *)
Definition go (W : mat) (m2 : R) : result (list (list R)) :=
  w02 <- mat_get W 0 2 ;;
  if eq_eps (Rabs w02) 0 then Ok [[]]
  else
    w01 <- mat_get W 0 1 ;;
    w00 <- mat_get W 0 0 ;;
    let q3 := arctan2 (- w01 * m2) (w00 * m2) in
    let c3 := cos q3 in
    if negb (eq_eps c3 0) then
      let q2 := arctan2 w02 (w00 / c3) in
      let c2 := cos q2 in
      w12 <- mat_get W 1 2 ;;
      w22 <- mat_get W 2 2 ;;
      let q1 := arctan2 (- w12 / c2) (w22 / c2) in
      Ok [[q1; q2; q3]]
    else
      let s3 := sin q3 in
      let q2 := arctan2 w02 (w01 / - s3) in
      let c2 := cos q2 in
      w12 <- mat_get W 1 2 ;;
      w22 <- mat_get W 2 2 ;;
      let q1 := arctan2 (- w12 / c2) (w22 / c2) in
      Ok [[q1; q2; q3]].

Definition decompose_transformation (W : mat) : result (list vec) :=
  a <- go W (-1) ;;
  b <- go W 1 ;;
  let q123 := a ++ b in
  mapM (fun q =>
          x <- mat_get W 0 3 ;;
          y <- mat_get W 1 3 ;;
          z <- mat_get W 2 3 ;;
          Ok ([x; y; z] ++ q)) q123.

(** ** The vector field of the motion *)

Definition t0 : R := 0.
Definition tf : R := 10.
Definition n_steps : R := 10000.

Definition x_target_default : result vec :=
  v <- get_fk_solution input "ee" ;;
  match v with
  | EE T => cands <- decompose_transformation T ;; getitem cands 0
  | _ => Raise TypeError
  end.

Definition k : R := (tf - t0) / n_steps.

(** [state_space(y, t)], the closure of [solve_motion] over the target [x1]. *)
Definition state_space (x1 : vec) (y : vec) (t : R) : result vec :=
  v <- get_fk_solution y "full" ;;
  match v with
  | Full fk =>
      J <- jacobian fk ;;
      T <- getlast fk ;;
      cands <- decompose_transformation T ;;
      xi <- getitem cands 0 ;;
      d <- vsub x1 xi ;;
      let dx := vscale d k in
      mat_vec J dx
  | _ => Raise TypeError
  end.

Section Integrator.

(** [scipy.integrate.odeint], which the script imports. *)
Variable odeint :
  (vec -> R -> result vec) -> vec -> list R -> result (list vec).

Definition solve_motion (y0 : vec) (t : list R) (x1 : vec)
  : result (list vec) :=
  odeint (state_space x1) y0 t.

End Integrator.

(** ** Vocabulary of the specification *)

(** A 4x4 and a 3x3 matrix written by entries. *)
Definition mk4 (a00 a01 a02 a03 a10 a11 a12 a13
                a20 a21 a22 a23 a30 a31 a32 a33 : R) : mat :=
  [[a00; a01; a02; a03];
   [a10; a11; a12; a13];
   [a20; a21; a22; a23];
   [a30; a31; a32; a33]].

Definition mk3 (a00 a01 a02 a10 a11 a12 a20 a21 a22 : R) : mat :=
  [[a00; a01; a02];
   [a10; a11; a12];
   [a20; a21; a22]].

(** Entry [(i,j)], read without a bound check. *)
Definition entry (M : mat) (i j : nat) : R := nth j (nth i M []) 0.

(** [r] rows of [c] entries each. *)
Definition shape (r c : nat) (M : mat) : Prop :=
  length M = r /\ Forall (fun row => length row = c) M.

(** [T[:3,:3]] and [T[:3,3]]. *)
Definition rot_block (T : mat) : mat := map (firstn 3) (firstn 3 T).
Definition translation (T : mat) : vec :=
  [entry T 0 3; entry T 1 3; entry T 2 3].

(** The third column of the rotation block: the joint axis. *)
Definition z_axis (T : mat) : vec := [entry T 0 2; entry T 1 2; entry T 2 2].

Definition transpose (M : mat) : mat := map (column M) (seq 0 (ncols M)).

Definition det3 (M : mat) : R :=
  entry M 0 0 * (entry M 1 1 * entry M 2 2 - entry M 1 2 * entry M 2 1)
  - entry M 0 1 * (entry M 1 0 * entry M 2 2 - entry M 1 2 * entry M 2 0)
  + entry M 0 2 * (entry M 1 0 * entry M 2 1 - entry M 1 1 * entry M 2 0).

(** A rotation matrix: 3x3, orthonormal, of determinant one. *)
Definition is_rotation (M : mat) : Prop :=
  shape 3 3 M /\ matmul (transpose M) M = eye 3 /\ det3 M = 1.

(** A valid homogeneous transform. *)
Definition homogeneous (T : mat) : Prop :=
  shape 4 4 T /\ is_rotation (rot_block T) /\ nth 3 T [] = [0; 0; 0; 1].

(** The test of the first line of [go]. *)
Definition degenerate (W : mat) : bool := eq_eps (Rabs (entry W 0 2)) 0.

(** The frame and the frames of a configuration, when forward kinematics
    returns them. *)
Definition fk_ee (qs : vec) : mat :=
  match get_fk_solution qs "ee" with
  | Ok (EE T) => T
  | _ => []
  end.

Definition fk_full (qs : vec) : list mat :=
  match get_fk_solution qs "full" with
  | Ok (Full ts) => ts
  | _ => []
  end.

(** [transform(i, angle)] of the specification, joints counted from one. *)
Definition transform (i : nat) (angle : R) : mat :=
  nth (i - 1) ts_num (fun _ => []) angle.

(** The cross product and the difference of two 3-vectors, without checks. *)
Definition cross3 (u v : vec) : vec :=
  [nth 1 u 0 * nth 2 v 0 - nth 2 u 0 * nth 1 v 0;
   nth 2 u 0 * nth 0 v 0 - nth 0 u 0 * nth 2 v 0;
   nth 0 u 0 * nth 1 v 0 - nth 1 u 0 * nth 0 v 0].

Definition vminus (u v : vec) : vec :=
  map (fun p => fst p - snd p) (combine u v).

(** The angle triple of one sign branch as the specification words it: the
    inner test is [cos a3 <> 0]. *)
Definition spec_angles (W : mat) (m2 : R) : list R :=
  let a3 := arctan2 (- entry W 0 1 * m2) (entry W 0 0 * m2) in
  let a2 :=
    if Req_dec_T (cos a3) 0
    then arctan2 (entry W 0 2) (entry W 0 1 / - sin a3)
    else arctan2 (entry W 0 2) (entry W 0 0 / cos a3) in
  let a1 := arctan2 (- entry W 1 2 / cos a2) (entry W 2 2 / cos a2) in
  [a1; a2; a3].

(** The rotation block rebuilt from an angle triple under the convention of
    the decomposition: a rotation about x by [a1], then about y by [a2], then
    about z by [a3]. *)
Definition rebuild (a1 a2 a3 : R) : mat :=
  rot_block (matmul (matmul (rot_symb Ax_x a1) (rot_symb Ax_y a2))
                    (rot_symb Ax_z a3)).

(** Entrywise agreement of two 3x3 blocks within [tol]. *)
Definition close3 (tol : R) (A B : mat) : Prop :=
  forall i j, (i < 3)%nat -> (j < 3)%nat ->
              Rabs (entry A i j - entry B i j) < tol.

(** The round trip of the specification at a configuration. *)
Definition roundtrip (tol : R) (qs : vec) : Prop :=
  exists T cands x y z a1 a2 a3,
    get_fk_solution qs "ee" = Ok (EE T) /\
    decompose_transformation T = Ok cands /\
    In [x; y; z; a1; a2; a3] cands /\
    close3 tol (rebuild a1 a2 a3) (rot_block T).

(** The table of closed forms that [sp.simplify] leaves in [get_dh()] and
    that [lambdify] turns into [ts_num]; [ts_num_closed] below proves that
    they are the values of [ts_num]. *)
Definition T12 (q : R) : mat :=
  mk4 (cos q) 0 (sin q) 0
      (sin q) 0 (- cos q) 0
      0 1 0 1
      0 0 0 1.
Definition T23 (q : R) : mat :=
  mk4 (cos q) (- sin q) 0 (cos q)
      (sin q) (cos q) 0 (sin q)
      0 0 1 0
      0 0 0 1.
Definition T34 (q : R) : mat :=
  mk4 (cos q) 0 (- sin q) (cos q)
      (sin q) 0 (cos q) (sin q)
      0 (-1) 0 0
      0 0 0 1.
Definition T45 (q : R) : mat :=
  mk4 (cos q) 0 (- sin q) 0
      (sin q) 0 (cos q) 0
      0 (-1) 0 1
      0 0 0 1.
Definition T56 (q : R) : mat :=
  mk4 (sin q) 0 (cos q) 0
      (- cos q) 0 (sin q) 0
      0 (-1) 0 0
      0 0 0 1.
Definition T6e (q : R) : mat :=
  mk4 (cos q) (- sin q) 0 0
      (sin q) (cos q) 0 0
      0 0 1 2
      0 0 0 1.

(** The chain of frames of six joint angles. *)
Definition chain (q1 q2 q3 q4 q5 q6 : R) : list mat :=
  let F1 := T12 q1 in
  let F2 := matmul F1 (T23 q2) in
  let F3 := matmul F2 (T34 q3) in
  let F4 := matmul F3 (T45 q4) in
  let F5 := matmul F4 (T56 q5) in
  let F6 := matmul F5 (T6e q6) in
  [F1; F2; F3; F4; F5; F6].

(** The angle triple that [go(m2)] computes when every entry it reads is present. *)
Definition code_angles (W : mat) (m2 : R) : list R :=
  let q3 := arctan2 (- entry W 0 1 * m2) (entry W 0 0 * m2) in
  let c3 := cos q3 in
  if negb (eq_eps c3 0) then
    let q2 := arctan2 (entry W 0 2) (entry W 0 0 / c3) in
    let c2 := cos q2 in
    let q1 := arctan2 (- entry W 1 2 / c2) (entry W 2 2 / c2) in
    [q1; q2; q3]
  else
    let s3 := sin q3 in
    let q2 := arctan2 (entry W 0 2) (entry W 0 1 / - s3) in
    let c2 := cos q2 in
    let q1 := arctan2 (- entry W 1 2 / c2) (entry W 2 2 / c2) in
    [q1; q2; q3].


(** Column [i] of the Jacobian as the specification words it, for the list
    [fks] of the base frame followed by the link frames: the cross product
    of the joint axis with the offset to the end effector, above the joint
    axis. *)
Definition spec_column (fks : list mat) (i : nat) : vec :=
  let Fi := nth i fks [] in
  let ee := last fks [] in
  cross3 (z_axis Fi) (vminus (translation ee) (translation Fi)) ++ z_axis Fi.

(** The 6x6 matrix of these columns. *)
Definition spec_jacobian (fks : list mat) : mat :=
  map (fun r => map (fun i => nth r (spec_column fks i) 0) (seq 0 6)) (seq 0 6).

(** The product [J . v] without the check of shapes. *)
Definition matvec (J : mat) (v : vec) : vec := map (fun row => dotv row v) J.

(** ** Further code of the script and vocabulary for its properties *)

(** The body of [for i in range(n-1): fk_symb += [fk_symb[i] * ts[i+1]]]. *)
Fixpoint fk_symb_loop (idx : list nat) (ts fk_symb : list mat)
  : result (list mat) :=
  match idx with
  | [] => Ok fk_symb
  | i :: idx' =>
      a <- getitem fk_symb i ;;
      b <- getitem ts (i + 1) ;;
      fk_symb_loop idx' ts (fk_symb ++ [matmul a b])
  end.

(** [get_fk_symb()], a list of matrices in the symbols [q1 ... q6], as the
    function of the values of these symbols. *)
Definition get_fk_symb (q1 q2 q3 q4 q5 q6 : R) : result (list mat) :=
  let ts := map (fun tq => fst tq (snd tq))
                (combine get_dh [q1; q2; q3; q4; q5; q6]) in
  first <- getitem ts 0 ;;
  fk_symb_loop (seq 0 (n - 1)) ts [first].

(** [u + v] on one-dimensional arrays of equal length. *)
Definition vplus (u v : vec) : vec :=
  map (fun p => fst p + snd p) (combine u v).

(** The transform that translates by [(x, y, z)] and then turns about x by
    [a1], about y by [a2] and about z by [a3], composed as the script
    composes its tables. *)
Definition pose_transform (x y z a1 a2 a3 : R) : mat :=
  compose_T_symb (TT Ax_x x)
    [TT Ax_y y; TT Ax_z z; TR Ax_x a1; TR Ax_y a2; TR Ax_z a3].

(** The angle half a turn away from [a], in [(-PI, PI]]. *)
Definition half_turn (a : R) : R :=
  if Rle_dec a 0 then a + PI else a - PI.

(** The supplement of [a], in [(-PI, PI]]. *)
Definition supplement (a : R) : R :=
  if Rle_dec 0 a then PI - a else - PI - a.

(** Squared distance of two points. *)
Definition dist2 (u v : vec) : R :=
  (nth 0 u 0 - nth 0 v 0) * (nth 0 u 0 - nth 0 v 0)
  + (nth 1 u 0 - nth 1 v 0) * (nth 1 u 0 - nth 1 v 0)
  + (nth 2 u 0 - nth 2 v 0) * (nth 2 u 0 - nth 2 v 0).

(** * Properties *)

(** ** Lists and the loop of forward kinematics *)

Lemma fk_loop_six (A B C D E F : mat) :
  fk_loop (seq 0 (n - 1)) [A; B; C; D; E; F] =
  Ok [A; matmul A B; matmul (matmul A B) C;
      matmul (matmul (matmul A B) C) D;
      matmul (matmul (matmul (matmul A B) C) D) E;
      matmul (matmul (matmul (matmul (matmul A B) C) D) E) F].
Proof. reflexivity. Qed.

Lemma fk_loop_short (ts : list mat) :
  (length ts < 6)%nat -> fk_loop (seq 0 (n - 1)) ts = Raise IndexError.
Proof.
  intros H.
  do 6 (destruct ts as [|? ts]; [reflexivity|]).
  simpl in H. lia.
Qed.

(** ** Products of 4x4 matrices *)

Ltac rows4 := f_equal; [|f_equal; [|f_equal; [|f_equal]]].

Lemma matmul_mk4
  a00 a01 a02 a03 a10 a11 a12 a13 a20 a21 a22 a23 a30 a31 a32 a33
  b00 b01 b02 b03 b10 b11 b12 b13 b20 b21 b22 b23 b30 b31 b32 b33 :
  matmul (mk4 a00 a01 a02 a03 a10 a11 a12 a13 a20 a21 a22 a23 a30 a31 a32 a33)
         (mk4 b00 b01 b02 b03 b10 b11 b12 b13 b20 b21 b22 b23 b30 b31 b32 b33) =
  mk4 (a00*b00 + a01*b10 + a02*b20 + a03*b30)
      (a00*b01 + a01*b11 + a02*b21 + a03*b31)
      (a00*b02 + a01*b12 + a02*b22 + a03*b32)
      (a00*b03 + a01*b13 + a02*b23 + a03*b33)
      (a10*b00 + a11*b10 + a12*b20 + a13*b30)
      (a10*b01 + a11*b11 + a12*b21 + a13*b31)
      (a10*b02 + a11*b12 + a12*b22 + a13*b32)
      (a10*b03 + a11*b13 + a12*b23 + a13*b33)
      (a20*b00 + a21*b10 + a22*b20 + a23*b30)
      (a20*b01 + a21*b11 + a22*b21 + a23*b31)
      (a20*b02 + a21*b12 + a22*b22 + a23*b32)
      (a20*b03 + a21*b13 + a22*b23 + a23*b33)
      (a30*b00 + a31*b10 + a32*b20 + a33*b30)
      (a30*b01 + a31*b11 + a32*b21 + a33*b31)
      (a30*b02 + a31*b12 + a32*b22 + a33*b32)
      (a30*b03 + a31*b13 + a32*b23 + a33*b33).
Proof.
  cbv [matmul mk4 map seq ncols hd length column nth dotv].
  rows4; rows4; ring.
Qed.

(** ** The Denavit-Hartenberg table in closed form *)

Lemma dh_closed (theta d a alpha : R) :
  compose_T_symb (TR Ax_z theta) [TT Ax_z d; TT Ax_x a; TR Ax_x alpha] =
  mk4 (cos theta) (- sin theta * cos alpha) (sin theta * sin alpha)
      (a * cos theta)
      (sin theta) (cos theta * cos alpha) (- cos theta * sin alpha)
      (a * sin theta)
      0 (sin alpha) (cos alpha) d
      0 0 0 1.
Proof.
  unfold compose_T_symb. cbn [map get_T running_product rot_symb trans_symb].
  fold (mk4 (cos theta) (- sin theta) 0 0 (sin theta) (cos theta) 0 0
            0 0 1 0 0 0 0 1).
  fold (mk4 1 0 0 0 0 1 0 0 0 0 1 d 0 0 0 1).
  fold (mk4 1 0 0 a 0 1 0 0 0 0 1 0 0 0 0 1).
  fold (mk4 1 0 0 0 0 (cos alpha) (- sin alpha) 0
            0 (sin alpha) (cos alpha) 0 0 0 0 1).
  rewrite !matmul_mk4. f_equal; ring.
Qed.

Lemma cos_mPI2 : cos (- PI / 2) = 0.
Proof.
  replace (- PI / 2) with (- (PI / 2)) by lra.
  rewrite cos_neg. apply cos_PI2.
Qed.

Lemma sin_mPI2 : sin (- PI / 2) = -1.
Proof.
  replace (- PI / 2) with (- (PI / 2)) by lra.
  rewrite sin_neg, sin_PI2. reflexivity.
Qed.

Lemma ts_num_closed (q1 q2 q3 q4 q5 q6 : R) :
  map (fun tq => fst tq (snd tq)) (combine ts_num [q1; q2; q3; q4; q5; q6]) =
  [T12 q1; T23 q2; T34 q3; T45 q4; T56 q5; T6e q6].
Proof.
  unfold ts_num, get_dh. cbn [combine map fst snd].
  rewrite !dh_closed.
  rewrite ?cos_PI2, ?sin_PI2, ?cos_mPI2, ?sin_mPI2, ?cos_0, ?sin_0.
  rewrite cos_minus, sin_minus, cos_PI2, sin_PI2.
  unfold l1, l2, l3, l4, l5, l6, link_lengths, T12, T23, T34, T45, T56, T6e.
  cbn [nth].
  repeat (apply f_equal2; [f_equal; ring|]). reflexivity.
Qed.

Lemma get_fk_full_six (q1 q2 q3 q4 q5 q6 : R) :
  get_fk_solution [q1; q2; q3; q4; q5; q6] "full" =
  Ok (Full (chain q1 q2 q3 q4 q5 q6)).
Proof.
  unfold get_fk_solution. rewrite ts_num_closed, fk_loop_six. reflexivity.
Qed.

Lemma get_fk_ee_six (q1 q2 q3 q4 q5 q6 : R) :
  get_fk_solution [q1; q2; q3; q4; q5; q6] "ee" =
  Ok (EE (nth 5 (chain q1 q2 q3 q4 q5 q6) [])).
Proof.
  unfold get_fk_solution. rewrite ts_num_closed, fk_loop_six. reflexivity.
Qed.

(** The end-effector frame when only the fifth joint is turned. *)
Lemma fk_ee_fifth (a : R) :
  fk_ee [0; 0; 0; 0; a; 0] =
  mk4 (sin a) 0 (cos a) (2 + 2 * cos a)
      0 (-1) 0 0
      (cos a) 0 (- sin a) (2 - 2 * sin a)
      0 0 0 1.
Proof.
  unfold fk_ee. rewrite get_fk_ee_six.
  unfold chain, T12, T23, T34, T45, T56, T6e. cbn [nth]. rewrite cos_0, sin_0.
  rewrite !matmul_mk4. f_equal; ring.
Qed.

(** ** Algebra of 3x3 blocks *)

Ltac rows3 := f_equal; [|f_equal; [|f_equal]].

Lemma shape_3_3_inv (M : mat) :
  shape 3 3 M ->
  exists a00 a01 a02 a10 a11 a12 a20 a21 a22,
    M = mk3 a00 a01 a02 a10 a11 a12 a20 a21 a22.
Proof.
  intros [HL HF].
  do 4 (destruct M as [|? M]; try discriminate HL).
  repeat match goal with
         | H : Forall _ (_ :: _) |- _ => inversion H; subst; clear H
         end.
  repeat match goal with
         | H : length ?r = 3%nat |- _ =>
             do 4 (destruct r as [|? r]; try discriminate H); clear H
         end.
  do 9 eexists. reflexivity.
Qed.

Lemma shape_4_4_inv (M : mat) :
  shape 4 4 M ->
  exists a00 a01 a02 a03 a10 a11 a12 a13 a20 a21 a22 a23 a30 a31 a32 a33,
    M = mk4 a00 a01 a02 a03 a10 a11 a12 a13 a20 a21 a22 a23 a30 a31 a32 a33.
Proof.
  intros [HL HF].
  do 5 (destruct M as [|? M]; try discriminate HL).
  repeat match goal with
         | H : Forall _ (_ :: _) |- _ => inversion H; subst; clear H
         end.
  repeat match goal with
         | H : length ?r = 4%nat |- _ =>
             do 5 (destruct r as [|? r]; try discriminate H); clear H
         end.
  do 16 eexists. reflexivity.
Qed.

Lemma shape_mk3 a00 a01 a02 a10 a11 a12 a20 a21 a22 :
  shape 3 3 (mk3 a00 a01 a02 a10 a11 a12 a20 a21 a22).
Proof. split; [reflexivity|]. repeat constructor. Qed.

Lemma shape_mk4 a00 a01 a02 a03 a10 a11 a12 a13 a20 a21 a22 a23 a30 a31 a32 a33 :
  shape 4 4 (mk4 a00 a01 a02 a03 a10 a11 a12 a13 a20 a21 a22 a23 a30 a31 a32 a33).
Proof. split; [reflexivity|]. repeat constructor. Qed.

Lemma matmul_mk3 a00 a01 a02 a10 a11 a12 a20 a21 a22
                 b00 b01 b02 b10 b11 b12 b20 b21 b22 :
  matmul (mk3 a00 a01 a02 a10 a11 a12 a20 a21 a22)
         (mk3 b00 b01 b02 b10 b11 b12 b20 b21 b22) =
  mk3 (a00*b00 + a01*b10 + a02*b20)
      (a00*b01 + a01*b11 + a02*b21)
      (a00*b02 + a01*b12 + a02*b22)
      (a10*b00 + a11*b10 + a12*b20)
      (a10*b01 + a11*b11 + a12*b21)
      (a10*b02 + a11*b12 + a12*b22)
      (a20*b00 + a21*b10 + a22*b20)
      (a20*b01 + a21*b11 + a22*b21)
      (a20*b02 + a21*b12 + a22*b22).
Proof.
  cbv [matmul mk3 map seq ncols hd length column nth dotv].
  rows3; rows3; ring.
Qed.

Lemma transpose_mk3 a00 a01 a02 a10 a11 a12 a20 a21 a22 :
  transpose (mk3 a00 a01 a02 a10 a11 a12 a20 a21 a22) =
  mk3 a00 a10 a20 a01 a11 a21 a02 a12 a22.
Proof. reflexivity. Qed.

Lemma eye3_mk3 : eye 3 = mk3 1 0 0 0 1 0 0 0 1.
Proof. reflexivity. Qed.

Lemma det3_mk3 a00 a01 a02 a10 a11 a12 a20 a21 a22 :
  det3 (mk3 a00 a01 a02 a10 a11 a12 a20 a21 a22) =
  a00 * (a11 * a22 - a12 * a21) - a01 * (a10 * a22 - a12 * a20)
  + a02 * (a10 * a21 - a11 * a20).
Proof. reflexivity. Qed.

Ltac as_mk3 H :=
  let a00 := fresh "a00" in let a01 := fresh "a01" in let a02 := fresh "a02" in
  let a10 := fresh "a10" in let a11 := fresh "a11" in let a12 := fresh "a12" in
  let a20 := fresh "a20" in let a21 := fresh "a21" in let a22 := fresh "a22" in
  destruct (shape_3_3_inv _ H)
    as (a00 & a01 & a02 & a10 & a11 & a12 & a20 & a21 & a22 & ->).

Lemma matmul_shape3 A B : shape 3 3 A -> shape 3 3 B -> shape 3 3 (matmul A B).
Proof.
  intros HA HB. as_mk3 HA. as_mk3 HB. rewrite matmul_mk3. apply shape_mk3.
Qed.

Lemma transpose_shape3 A : shape 3 3 A -> shape 3 3 (transpose A).
Proof. intros HA. as_mk3 HA. rewrite transpose_mk3. apply shape_mk3. Qed.

Lemma matmul_assoc3 A B C :
  shape 3 3 A -> shape 3 3 B -> shape 3 3 C ->
  matmul (matmul A B) C = matmul A (matmul B C).
Proof.
  intros HA HB HC. as_mk3 HA. as_mk3 HB. as_mk3 HC.
  rewrite !matmul_mk3. f_equal; ring.
Qed.

Lemma transpose_matmul3 A B :
  shape 3 3 A -> shape 3 3 B ->
  transpose (matmul A B) = matmul (transpose B) (transpose A).
Proof.
  intros HA HB. as_mk3 HA. as_mk3 HB.
  rewrite matmul_mk3, !transpose_mk3, matmul_mk3. f_equal; ring.
Qed.

Lemma matmul_eye3_l A : shape 3 3 A -> matmul (eye 3) A = A.
Proof.
  intros HA. as_mk3 HA. rewrite eye3_mk3, matmul_mk3. f_equal; ring.
Qed.

Lemma det3_matmul A B :
  shape 3 3 A -> shape 3 3 B -> det3 (matmul A B) = det3 A * det3 B.
Proof.
  intros HA HB. as_mk3 HA. as_mk3 HB.
  rewrite matmul_mk3, !det3_mk3. ring.
Qed.

Lemma is_rotation_matmul A B :
  is_rotation A -> is_rotation B -> is_rotation (matmul A B).
Proof.
  intros (HA & OA & DA) (HB & OB & DB).
  split; [now apply matmul_shape3|]. split.
  - rewrite transpose_matmul3 by assumption.
    rewrite matmul_assoc3
      by auto using transpose_shape3, matmul_shape3.
    rewrite <- (matmul_assoc3 (transpose A) A B)
      by auto using transpose_shape3.
    rewrite OA, matmul_eye3_l by assumption. exact OB.
  - rewrite det3_matmul, DA, DB by assumption. ring.
Qed.

(** ** Homogeneous transforms *)

Lemma rot_block_mk4 a00 a01 a02 a03 a10 a11 a12 a13 a20 a21 a22 a23 a30 a31 a32 a33 :
  rot_block (mk4 a00 a01 a02 a03 a10 a11 a12 a13 a20 a21 a22 a23 a30 a31 a32 a33)
  = mk3 a00 a01 a02 a10 a11 a12 a20 a21 a22.
Proof. reflexivity. Qed.

Lemma homogeneous_inv T :
  homogeneous T ->
  exists r00 r01 r02 x r10 r11 r12 y r20 r21 r22 z,
    T = mk4 r00 r01 r02 x r10 r11 r12 y r20 r21 r22 z 0 0 0 1 /\
    is_rotation (mk3 r00 r01 r02 r10 r11 r12 r20 r21 r22).
Proof.
  intros (HS & HR & HB).
  destruct (shape_4_4_inv _ HS)
    as (a00 & a01 & a02 & a03 & a10 & a11 & a12 & a13 &
        a20 & a21 & a22 & a23 & a30 & a31 & a32 & a33 & ->).
  cbn in HB. injection HB as -> -> -> ->.
  rewrite rot_block_mk4 in HR.
  do 12 eexists. split; [reflexivity | exact HR].
Qed.

Lemma homogeneous_mk4 r00 r01 r02 x r10 r11 r12 y r20 r21 r22 z :
  is_rotation (mk3 r00 r01 r02 r10 r11 r12 r20 r21 r22) ->
  homogeneous (mk4 r00 r01 r02 x r10 r11 r12 y r20 r21 r22 z 0 0 0 1).
Proof.
  intros HR. split; [apply shape_mk4|]. split; [|reflexivity].
  rewrite rot_block_mk4. exact HR.
Qed.

Lemma homogeneous_matmul A B :
  homogeneous A -> homogeneous B -> homogeneous (matmul A B).
Proof.
  intros HA HB.
  destruct (homogeneous_inv _ HA)
    as (a00 & a01 & a02 & ax & a10 & a11 & a12 & ay & a20 & a21 & a22 & az
        & -> & RA).
  destruct (homogeneous_inv _ HB)
    as (b00 & b01 & b02 & bx & b10 & b11 & b12 & by_ & b20 & b21 & b22 & bz
        & -> & RB).
  pose proof (is_rotation_matmul _ _ RA RB) as RAB.
  rewrite matmul_mk3 in RAB. rewrite matmul_mk4.
  match goal with
  | |- homogeneous (mk4 ?c00 ?c01 ?c02 ?cx ?c10 ?c11 ?c12 ?cy
                        ?c20 ?c21 ?c22 ?cz _ _ _ _) =>
      replace (mk4 c00 c01 c02 cx c10 c11 c12 cy c20 c21 c22 cz _ _ _ _)
        with (mk4 (a00*b00 + a01*b10 + a02*b20)
      (a00*b01 + a01*b11 + a02*b21)
      (a00*b02 + a01*b12 + a02*b22) cx
      (a10*b00 + a11*b10 + a12*b20)
      (a10*b01 + a11*b11 + a12*b21)
      (a10*b02 + a11*b12 + a12*b22) cy
      (a20*b00 + a21*b10 + a22*b20)
      (a20*b01 + a21*b11 + a22*b21)
      (a20*b02 + a21*b12 + a22*b22) cz 0 0 0 1) by (f_equal; ring)
  end.
  apply homogeneous_mk4. exact RAB.
Qed.

Lemma is_rotation_intro a00 a01 a02 a10 a11 a12 a20 a21 a22 :
  a00 * a00 + a10 * a10 + a20 * a20 = 1 ->
  a01 * a01 + a11 * a11 + a21 * a21 = 1 ->
  a02 * a02 + a12 * a12 + a22 * a22 = 1 ->
  a00 * a01 + a10 * a11 + a20 * a21 = 0 ->
  a00 * a02 + a10 * a12 + a20 * a22 = 0 ->
  a01 * a02 + a11 * a12 + a21 * a22 = 0 ->
  a00 * (a11 * a22 - a12 * a21) - a01 * (a10 * a22 - a12 * a20)
  + a02 * (a10 * a21 - a11 * a20) = 1 ->
  is_rotation (mk3 a00 a01 a02 a10 a11 a12 a20 a21 a22).
Proof.
  intros H00 H11 H22 H01 H02 H12 HD.
  split; [apply shape_mk3|]. split; [|exact HD].
  rewrite transpose_mk3, matmul_mk3, eye3_mk3.
  f_equal; lra.
Qed.

Lemma sin_cos_sq (q : R) : sin q * sin q + cos q * cos q = 1.
Proof. exact (sin2_cos2 q). Qed.

Lemma homogeneous_rot_symb (a : axis) (q : R) : homogeneous (rot_symb a q).
Proof.
  pose proof (sin_cos_sq q) as H.
  destruct a; apply homogeneous_mk4; apply is_rotation_intro; lra.
Qed.

Lemma homogeneous_trans_symb (a : axis) (d : R) : homogeneous (trans_symb a d).
Proof.
  destruct a; apply homogeneous_mk4; apply is_rotation_intro; lra.
Qed.

Lemma homogeneous_get_T (arg : targ) : homogeneous (get_T arg).
Proof.
  destruct arg; [apply homogeneous_rot_symb | apply homogeneous_trans_symb].
Qed.

Lemma homogeneous_running_product (rest : list mat) :
  forall acc, homogeneous acc -> Forall homogeneous rest ->
              homogeneous (running_product acc rest).
Proof.
  induction rest as [|m rest IH]; intros acc Hacc Hrest; [exact Hacc|].
  inversion Hrest; subst. cbn. apply IH; [now apply homogeneous_matmul | assumption].
Qed.

Lemma homogeneous_compose_T_symb (arg : targ) (args : list targ) :
  homogeneous (compose_T_symb arg args).
Proof.
  apply homogeneous_running_product; [apply homogeneous_get_T|].
  induction args; constructor; [apply homogeneous_get_T | assumption].
Qed.

Lemma homogeneous_ts_num (i : nat) (q : R) :
  (i < 6)%nat -> homogeneous (nth i ts_num (fun _ => []) q).
Proof.
  intros Hi. unfold ts_num, get_dh.
  do 6 (destruct i as [|i]; [apply homogeneous_compose_T_symb|]). lia.
Qed.

(** ** Forward kinematics *)

Lemma vec6_inv (qs : vec) :
  length qs = 6%nat ->
  exists q1 q2 q3 q4 q5 q6, qs = [q1; q2; q3; q4; q5; q6].
Proof.
  intros H. do 7 (destruct qs as [|? qs]; try discriminate H).
  do 6 eexists. reflexivity.
Qed.

Lemma closed_table_homogeneous (q1 q2 q3 q4 q5 q6 : R) :
  Forall homogeneous [T12 q1; T23 q2; T34 q3; T45 q4; T56 q5; T6e q6].
Proof.
  rewrite <- ts_num_closed. unfold ts_num, get_dh. cbn [combine map fst snd].
  repeat constructor; apply homogeneous_compose_T_symb.
Qed.

Lemma chain_homogeneous (q1 q2 q3 q4 q5 q6 : R) :
  Forall homogeneous (chain q1 q2 q3 q4 q5 q6).
Proof.
  pose proof (closed_table_homogeneous q1 q2 q3 q4 q5 q6) as H.
  repeat match goal with
         | H : Forall _ (_ :: _) |- _ => inversion H; subst; clear H
         end.
  unfold chain. cbv zeta.
  repeat (apply Forall_cons || apply Forall_nil);
    repeat apply homogeneous_matmul; assumption.
Qed.

Lemma transform_closed (q : R) :
  transform 1 q = T12 q /\ transform 2 q = T23 q /\ transform 3 q = T34 q /\
  transform 4 q = T45 q /\ transform 5 q = T56 q /\ transform 6 q = T6e q.
Proof.
  assert (H : forall i,
             nth i (map (fun tq : (R -> mat) * R => fst tq (snd tq))
                        (combine ts_num [q; q; q; q; q; q])) [] =
             nth i [T12 q; T23 q; T34 q; T45 q; T56 q; T6e q] [])
    by (intros i; now rewrite ts_num_closed).
  repeat split;
    [exact (H 0%nat) | exact (H 1%nat) | exact (H 2%nat)
     | exact (H 3%nat) | exact (H 4%nat) | exact (H 5%nat)].
Qed.

(** C9.  For every joint vector of six reals, every per-joint transform of
    the table (at any angle) and every frame returned by forward kinematics,
    the end-effector frame included, is a valid homogeneous transform: a 4x4
    matrix whose rotation block is orthonormal with determinant one and whose
    bottom row is [0, 0, 0, 1]. *)
Theorem frames_are_homogeneous (qs : vec) :
  length qs = 6%nat ->
  (forall i angle, (1 <= i <= 6)%nat -> homogeneous (transform i angle)) /\
  exists frames T,
    get_fk_solution qs "full" = Ok (Full frames) /\
    length frames = 6%nat /\
    Forall homogeneous frames /\
    get_fk_solution qs "ee" = Ok (EE T) /\
    homogeneous T.
Proof.
  intros H. split.
  - intros i angle Hi. unfold transform.
    apply homogeneous_ts_num. lia.
  - destruct (vec6_inv qs H) as (q1 & q2 & q3 & q4 & q5 & q6 & ->).
    exists (chain q1 q2 q3 q4 q5 q6), (nth 5 (chain q1 q2 q3 q4 q5 q6) []).
    pose proof (chain_homogeneous q1 q2 q3 q4 q5 q6) as HC.
    split; [apply get_fk_full_six|]. split; [reflexivity|].
    split; [exact HC|]. split; [apply get_fk_ee_six|].
    rewrite Forall_forall in HC. apply HC. unfold chain. cbn [nth].
    do 5 right. left. reflexivity.
Qed.

Lemma eye4_mk4 : eye 4 = mk4 1 0 0 0 0 1 0 0 0 0 1 0 0 0 0 1.
Proof. reflexivity. Qed.

(** C2, amended.  For a joint vector of six reals the full chain is a list
    of six frames, the link frames only: the identity base frame is not part
    of it.  Frame 1 is [T_0 . transform(1, q_1)] with [T_0] the identity, that
    is [transform(1, q_1)] itself, frame [i] is frame [i-1] times
    [transform(i, q_i)], and the end-effector request returns the last
    frame of the chain. *)
Theorem fk_returns_six_link_frames (qs : vec) :
  length qs = 6%nat ->
  exists frames,
    get_fk_solution qs "full" = Ok (Full frames) /\
    length frames = 6%nat /\
    nth 0 frames [] = matmul (eye 4) (transform 1 (nth 0 qs 0)) /\
    nth 0 frames [] = transform 1 (nth 0 qs 0) /\
    (forall i, (1 <= i < 6)%nat ->
               nth i frames [] =
               matmul (nth (i - 1) frames []) (transform (i + 1) (nth i qs 0))) /\
    get_fk_solution qs "ee" = Ok (EE (last frames [])).
Proof.
  intros H.
  destruct (vec6_inv qs H) as (q1 & q2 & q3 & q4 & q5 & q6 & ->).
  exists (chain q1 q2 q3 q4 q5 q6).
  split; [apply get_fk_full_six|]. split; [reflexivity|].
  destruct (transform_closed q1) as (E1 & _).
  destruct (transform_closed q2) as (_ & E2 & _).
  destruct (transform_closed q3) as (_ & _ & E3 & _).
  destruct (transform_closed q4) as (_ & _ & _ & E4 & _).
  destruct (transform_closed q5) as (_ & _ & _ & _ & E5 & _).
  destruct (transform_closed q6) as (_ & _ & _ & _ & _ & E6).
  unfold chain. cbv zeta. cbn [nth]. rewrite E1.
  split; [|split; [reflexivity|split]].
  - unfold T12. rewrite eye4_mk4, matmul_mk4. f_equal; ring.
  - intros i Hi.
    destruct i as [|[|[|[|[|[|i]]]]]]; try lia; cbn [nth Nat.sub Nat.add];
      rewrite ?E2, ?E3, ?E4, ?E5, ?E6; reflexivity.
  - rewrite get_fk_ee_six. reflexivity.
Qed.

Lemma fk_returns_six_link_frames_witness :
  length input_initial = 6%nat /\
  exists frames,
    get_fk_solution input_initial "full" = Ok (Full frames) /\
    length frames = 6%nat /\
    nth 0 frames [] = matmul (eye 4) (transform 1 (nth 0 input_initial 0)) /\
    nth 0 frames [] = transform 1 (nth 0 input_initial 0) /\
    (forall i, (1 <= i < 6)%nat ->
               nth i frames [] =
               matmul (nth (i - 1) frames [])
                      (transform (i + 1) (nth i input_initial 0))) /\
    get_fk_solution input_initial "ee" = Ok (EE (last frames [])).
Proof.
  split; [reflexivity|]. apply (fk_returns_six_link_frames input_initial).
  reflexivity.
Defined.

(** C2 as stated fails: the chain of the zero configuration is not a list of
    seven frames headed by the identity. *)
Lemma fk_full_is_not_seven_frames :
  ~ (exists frames,
        get_fk_solution input_initial "full" = Ok (Full frames) /\
        length frames = 7%nat /\ nth 0 frames [] = eye 4).
Proof.
  intros (frames & Hfk & Hlen & _).
  unfold input_initial in Hfk. rewrite get_fk_full_six in Hfk.
  injection Hfk as <-. discriminate Hlen.
Qed.

Lemma fk_ee_zero :
  get_fk_solution input_initial "ee" =
  Ok (EE (mk4 0 0 1 4  0 (-1) 0 0  1 0 0 2  0 0 0 1)).
Proof.
  pose proof (fk_ee_fifth 0) as H. unfold fk_ee in H.
  unfold input_initial. rewrite get_fk_ee_six in *.
  rewrite H, cos_0, sin_0. do 2 f_equal. f_equal; ring.
Qed.

(** C7, amended.  At the all-zero configuration the end-effector translation
    is [(l2 + l3 + l5 + l6, 0, l1 + l4)]: its z-component is [l1 + l4 = 2],
    the sum of the two z-offsets of the table that point along the world
    z-axis there; the offset [l5 + l6] of the last row points along the world
    x-axis. *)
Theorem zero_configuration_translation :
  exists T,
    get_fk_solution input_initial "ee" = Ok (EE T) /\
    translation T = [l2 + l3 + l5 + l6; 0; l1 + l4] /\
    entry T 2 3 = 2.
Proof.
  eexists. split; [apply fk_ee_zero|].
  unfold translation, entry, mk4, l1, l2, l3, l4, l5, l6, link_lengths.
  cbn [nth]. split; [|reflexivity].
  repeat (apply f_equal2; [lra|]). reflexivity.
Qed.

(** C7 as stated fails: the z-component is not [l1 + l4 + l5 + l6]. *)
Lemma zero_configuration_z_is_not_four :
  ~ (exists T,
        get_fk_solution input_initial "ee" = Ok (EE T) /\
        entry T 2 3 = l1 + l4 + l5 + l6).
Proof.
  intros (T & HT & Hz). rewrite fk_ee_zero in HT. injection HT as <-.
  unfold entry, mk4, l1, l4, l5, l6, link_lengths in Hz. cbn [nth] in Hz. lra.
Qed.

(** Joint vectors of another length *)

Lemma combine_ts_num_firstn (qs : vec) :
  combine ts_num qs = combine ts_num (firstn 6 qs).
Proof.
  do 6 (destruct qs as [|? qs]; [reflexivity|]).
  unfold ts_num, get_dh. cbn [firstn combine]. reflexivity.
Qed.

Lemma fk_short_vector (qs : vec) (flag : string) :
  (length qs < 6)%nat -> get_fk_solution qs flag = Raise IndexError.
Proof.
  intros H. unfold get_fk_solution.
  rewrite fk_loop_short; [reflexivity|].
  rewrite length_map, length_combine. lia.
Qed.

Lemma fk_long_vector (qs : vec) (flag : string) :
  (6 <= length qs)%nat ->
  get_fk_solution qs flag = get_fk_solution (firstn 6 qs) flag /\
  exists T, get_fk_solution qs "ee" = Ok (EE T).
Proof.
  intros H. unfold get_fk_solution at 1 3.
  rewrite combine_ts_num_firstn. split; [reflexivity|].
  assert (H6 : length (firstn 6 qs) = 6%nat) by (rewrite length_firstn; lia).
  destruct (vec6_inv _ H6) as (q1 & q2 & q3 & q4 & q5 & q6 & ->).
  rewrite ts_num_closed, fk_loop_six. eexists. reflexivity.
Qed.

(** ** The angle function [arctan2] *)

Lemma norm_sq (x y : R) :
  0 <= sqrt (x * x + y * y) /\
  sqrt (x * x + y * y) * sqrt (x * x + y * y) = x * x + y * y.
Proof.
  split; [apply sqrt_pos|]. apply sqrt_sqrt. nra.
Qed.

Lemma norm_pos (x y : R) : x <> 0 \/ y <> 0 -> 0 < sqrt (x * x + y * y).
Proof.
  intros H. apply sqrt_lt_R0. destruct H; nra.
Qed.

Lemma sqrt_one_plus_sq (x y d : R) :
  0 < d -> d * d = x * x ->
  sqrt (1 + (y / x)²) = sqrt (x * x + y * y) / d.
Proof.
  intros Hd Hx.
  destruct (norm_sq x y) as [Hr0 Hr].
  assert (Hx0 : x <> 0) by nra.
  apply sqrt_lem_1.
  - unfold Rsqr. nra.
  - apply Rmult_le_pos; [exact Hr0|]. left. now apply Rinv_0_lt_compat.
  - unfold Rsqr.
    replace (sqrt (x * x + y * y) / d * (sqrt (x * x + y * y) / d))
      with ((sqrt (x * x + y * y) * sqrt (x * x + y * y)) / (d * d))
      by (field; lra).
    rewrite Hr, Hx. field. exact Hx0.
Qed.

Lemma atan_polar (x y d : R) :
  0 < d -> d * d = x * x ->
  sqrt (x * x + y * y) * cos (atan (y / x)) = d /\
  sqrt (x * x + y * y) * sin (atan (y / x)) = y / x * d.
Proof.
  intros Hd Hx.
  assert (Hx0 : x <> 0) by nra.
  pose proof (norm_pos x y (or_introl Hx0)) as Hr.
  rewrite cos_atan, sin_atan, (sqrt_one_plus_sq x y d Hd Hx).
  split; field; lra.
Qed.

Lemma cos_minus_PI (a : R) : cos (a - PI) = - cos a.
Proof. rewrite cos_minus, cos_PI, sin_PI. ring. Qed.

Lemma sin_minus_PI (a : R) : sin (a - PI) = - sin a.
Proof. rewrite sin_minus, cos_PI, sin_PI. ring. Qed.

Lemma sqrt_sq_abs (y : R) : sqrt (0 * 0 + y * y) = Rabs y.
Proof.
  replace (0 * 0 + y * y) with (Rsqr y) by (unfold Rsqr; ring).
  apply sqrt_Rsqr_abs.
Qed.

(** The polar form of a point: [arctan2 y x] is its angle. *)
Lemma arctan2_polar (y x : R) :
  sqrt (x * x + y * y) * cos (arctan2 y x) = x /\
  sqrt (x * x + y * y) * sin (arctan2 y x) = y.
Proof.
  unfold arctan2.
  destruct (Rlt_dec 0 x) as [Hpos|Hnpos].
  - destruct (atan_polar x y x Hpos eq_refl) as [Hc Hs].
    rewrite Hc, Hs. split; [reflexivity | field; lra].
  - destruct (Rlt_dec x 0) as [Hneg|Hnneg].
    + assert (Hd : 0 < - x) by lra.
      destruct (atan_polar x y (- x) Hd ltac:(ring)) as [Hc Hs].
      destruct (Rle_dec 0 y).
      * rewrite neg_cos, neg_sin. split.
        -- rewrite Ropp_mult_distr_r_reverse, Hc. ring.
        -- rewrite Ropp_mult_distr_r_reverse, Hs. field; lra.
      * rewrite cos_minus_PI, sin_minus_PI. split.
        -- rewrite Ropp_mult_distr_r_reverse, Hc. ring.
        -- rewrite Ropp_mult_distr_r_reverse, Hs. field; lra.
    + assert (x = 0) by lra. subst x. rewrite sqrt_sq_abs.
      destruct (Rlt_dec 0 y).
      * rewrite cos_PI2, sin_PI2, Rabs_pos_eq by lra. split; ring.
      * destruct (Rlt_dec y 0).
        -- rewrite cos_neg, sin_neg, cos_PI2, sin_PI2, Rabs_left by lra.
           split; ring.
        -- assert (y = 0) by lra. subst y.
           rewrite Rabs_R0. split; ring.
Qed.

Lemma arctan2_origin : arctan2 0 0 = 0.
Proof.
  unfold arctan2.
  destruct (Rlt_dec 0 0); [lra|]. reflexivity.
Qed.

Lemma arctan2_unit (y x : R) :
  x * x + y * y = 1 -> cos (arctan2 y x) = x /\ sin (arctan2 y x) = y.
Proof.
  intros H. pose proof (arctan2_polar y x) as [Hc Hs].
  rewrite H, sqrt_1 in Hc, Hs. lra.
Qed.

(** ** Reading entries *)

Lemma getitem_ok {A : Type} (l : list A) (i : nat) (d : A) :
  (i < length l)%nat -> getitem l i = Ok (nth i l d).
Proof.
  intros H. unfold getitem.
  rewrite (nth_error_nth' l d H). reflexivity.
Qed.

Lemma getitem_err {A : Type} (l : list A) (i : nat) :
  (length l <= i)%nat -> getitem l i = Raise IndexError.
Proof.
  intros H. unfold getitem.
  apply nth_error_None in H. rewrite H. reflexivity.
Qed.

Lemma mat_get_ok (r c : nat) (W : mat) (i j : nat) :
  shape r c W -> (i < r)%nat -> (j < c)%nat ->
  mat_get W i j = Ok (entry W i j).
Proof.
  intros [HL HF] Hi Hj. unfold mat_get, entry.
  rewrite (getitem_ok W i []) by lia. cbn [bind].
  apply getitem_ok.
  rewrite Forall_forall in HF. rewrite (HF (nth i W [])); [exact Hj|].
  apply nth_In. lia.
Qed.

Lemma mat_get_err (r c : nat) (W : mat) (i j : nat) :
  shape r c W -> (r <= i)%nat \/ (c <= j)%nat ->
  mat_get W i j = Raise IndexError.
Proof.
  intros [HL HF] H. unfold mat_get.
  destruct (Nat.lt_ge_cases i r) as [Hi|Hi].
  - rewrite (getitem_ok W i []) by lia. cbn [bind].
    apply getitem_err.
    rewrite Forall_forall in HF. rewrite (HF (nth i W [])); [lia|].
    apply nth_In. lia.
  - rewrite getitem_err by lia. reflexivity.
Qed.

(** ** The pose decomposition *)

Lemma go_ok (r c : nat) (W : mat) (m2 : R) :
  shape r c W -> (3 <= r)%nat -> (3 <= c)%nat ->
  go W m2 = Ok [if degenerate W then [] else code_angles W m2].
Proof.
  intros HS Hr Hc. unfold go, degenerate, code_angles.
  rewrite !(mat_get_ok r c W _ _ HS) by lia. cbn [bind].
  destruct (eq_eps (Rabs (entry W 0 2)) 0); [reflexivity|].
  destruct (eq_eps _ 0); reflexivity.
Qed.

Lemma decompose_ok (r c : nat) (W : mat) :
  shape r c W -> (3 <= r)%nat -> (4 <= c)%nat ->
  decompose_transformation W =
  Ok (if degenerate W
      then [translation W; translation W]
      else [translation W ++ code_angles W (-1);
            translation W ++ code_angles W 1]).
Proof.
  intros HS Hr Hc. unfold decompose_transformation.
  rewrite !(go_ok r c W _ HS) by lia. cbn [bind app mapM].
  rewrite !(mat_get_ok r c W _ _ HS) by lia. cbn [bind].
  unfold translation. destruct (degenerate W); reflexivity.
Qed.

Lemma go_cases (W : mat) (m2 : R) (r c : nat) :
  shape r c W -> 
  go W m2 = Raise IndexError \/ exists a, go W m2 = Ok [a].
Proof.
  intros HS. unfold go.
  destruct (mat_get W 0 2) as [w02|e] eqn:E02.
  2:{ left. cbn [bind]. destruct (Nat.lt_ge_cases 0 r), (Nat.lt_ge_cases 2 c).
      1: rewrite (mat_get_ok r c W _ _ HS) in E02 by lia; discriminate.
      all: rewrite (mat_get_err r c W _ _ HS) in E02 by lia; congruence. }
  cbn [bind]. destruct (eq_eps (Rabs w02) 0); [right; eauto|].
  assert (H0 : (0 < r)%nat /\ (2 < c)%nat).
  { destruct (Nat.lt_ge_cases 0 r), (Nat.lt_ge_cases 2 c); try lia.
    all: rewrite (mat_get_err r c W _ _ HS) in E02 by lia; discriminate. }
  rewrite !(mat_get_ok r c W 0 _ HS) by lia. cbn [bind].
  assert (HX : forall f : R -> R -> result (list (list R)),
             (forall a b, exists l, f a b = Ok [l]) ->
             (w12 <- mat_get W 1 2 ;; w22 <- mat_get W 2 2 ;; f w12 w22)
             = Raise IndexError \/
             exists a, (w12 <- mat_get W 1 2 ;; w22 <- mat_get W 2 2 ;; f w12 w22)
                       = Ok [a]).
  { intros f Hf.
    destruct (Nat.lt_ge_cases 1 r).
    - rewrite (mat_get_ok r c W 1 2 HS) by lia. cbn [bind].
      destruct (Nat.lt_ge_cases 2 r).
      + rewrite (mat_get_ok r c W 2 2 HS) by lia. cbn [bind].
        right. apply Hf.
      + rewrite (mat_get_err r c W 2 2 HS) by lia. left. reflexivity.
    - rewrite (mat_get_err r c W 1 2 HS) by lia. left. reflexivity. }
  destruct (negb _); apply HX; intros; eexists; reflexivity.
Qed.

Lemma decompose_err (r c : nat) (W : mat) :
  shape r c W -> (r < 3)%nat \/ (c < 4)%nat ->
  decompose_transformation W = Raise IndexError.
Proof.
  intros HS H. unfold decompose_transformation.
  destruct (Nat.lt_ge_cases r 3) as [Hr|Hr].
  - (* fewer than three rows *)
    destruct (go_cases W (-1) r c HS) as [E|[a E]]; rewrite E; cbn [bind];
      [reflexivity|].
    destruct (go_cases W 1 r c HS) as [E'|[b E']]; rewrite E'; cbn [bind];
      [reflexivity|].
    cbn [app mapM].
    destruct (Nat.lt_ge_cases 3 c) as [Hc|Hc].
    + destruct (Nat.lt_ge_cases 0 r) as [H0|H0].
      * rewrite (mat_get_ok r c W 0 3 HS) by lia. cbn [bind].
        destruct (Nat.lt_ge_cases 1 r) as [H1|H1].
        -- rewrite (mat_get_ok r c W 1 3 HS) by lia. cbn [bind].
           rewrite (mat_get_err r c W 2 3 HS) by lia. reflexivity.
        -- rewrite (mat_get_err r c W 1 3 HS) by lia. reflexivity.
      * rewrite (mat_get_err r c W 0 3 HS) by lia. reflexivity.
    + rewrite (mat_get_err r c W 0 3 HS) by lia. reflexivity.
  - assert (Hc : (c < 4)%nat) by lia.
    destruct (go_cases W (-1) r c HS) as [E|[a E]]; rewrite E; cbn [bind];
      [reflexivity|].
    destruct (go_cases W 1 r c HS) as [E'|[b E']]; rewrite E'; cbn [bind];
      [reflexivity|].
    cbn [app mapM].
    rewrite (mat_get_err r c W 0 3 HS) by lia. reflexivity.
Qed.

Lemma eps_pos : 0 < eps /\ eps < 1.
Proof. unfold eps. lra. Qed.

Lemma eq_eps_true (a b : R) : eq_eps a b = true <-> Rabs (a - b) < eps.
Proof.
  unfold eq_eps. destruct (Rlt_dec (Rabs (a - b)) eps); split; intros;
    try reflexivity; try assumption; try discriminate; contradiction.
Qed.

Lemma eq_eps_false (a b : R) : eq_eps a b = false <-> eps <= Rabs (a - b).
Proof.
  unfold eq_eps. destruct (Rlt_dec (Rabs (a - b)) eps); split; intros;
    try reflexivity; try discriminate; lra.
Qed.

Lemma degenerate_false (W : mat) :
  degenerate W = false <-> eps <= Rabs (entry W 0 2).
Proof.
  unfold degenerate. rewrite eq_eps_false, Rminus_0_r, Rabs_Rabsolu. reflexivity.
Qed.

Lemma degenerate_true (W : mat) :
  degenerate W = true <-> Rabs (entry W 0 2) < eps.
Proof.
  unfold degenerate. rewrite eq_eps_true, Rminus_0_r, Rabs_Rabsolu. reflexivity.
Qed.

(** In the band [0 < |cos a3| < eps] the two formulas for the second argument
    of [a2] agree. *)
Lemma second_argument_agrees (w00 w01 m2 : R) :
  let a3 := arctan2 (- w01 * m2) (w00 * m2) in
  eq_eps (cos a3) 0 = true -> cos a3 <> 0 ->
  w00 / cos a3 = w01 / - sin a3.
Proof.
  intros a3 Hband Hc.
  apply eq_eps_true in Hband. rewrite Rminus_0_r in Hband.
  destruct eps_pos as [_ He].
  destruct (arctan2_polar (- w01 * m2) (w00 * m2)) as [Pc Ps].
  fold a3 in Pc, Ps.
  set (r := sqrt (w00 * m2 * (w00 * m2) + - w01 * m2 * (- w01 * m2))) in *.
  assert (Hs : sin a3 <> 0).
  { pose proof (sin_cos_sq a3) as H1.
    destruct (Rabs_def2 _ _ Hband) as [Hlo Hhi]. nra. }
  assert (Hr : r <> 0).
  { intros Hr. rewrite Hr in Pc, Ps.
    assert (E : a3 = 0).
    { unfold a3. replace (- w01 * m2) with 0 by lra.
      replace (w00 * m2) with 0 by lra. apply arctan2_origin. }
    rewrite E, cos_0, Rabs_R1 in Hband. lra. }
  assert (N : w00 * - sin a3 = w01 * cos a3).
  { apply Rmult_eq_reg_l with r; [|exact Hr].
    replace (r * (w00 * - sin a3)) with (- w00 * (r * sin a3)) by ring.
    replace (r * (w01 * cos a3)) with (w01 * (r * cos a3)) by ring.
    rewrite Pc, Ps. ring. }
  apply Rmult_eq_reg_r with (cos a3 * - sin a3).
  - replace (w00 / cos a3 * (cos a3 * - sin a3)) with (w00 * - sin a3)
      by (field; exact Hc).
    replace (w01 / - sin a3 * (cos a3 * - sin a3)) with (w01 * cos a3)
      by (field; exact Hs).
    exact N.
  - apply Rmult_integral_contrapositive. split; lra.
Qed.

Lemma code_angles_spec (W : mat) (m2 : R) :
  code_angles W m2 = spec_angles W m2.
Proof.
  unfold code_angles, spec_angles. cbv zeta.
  set (a3 := arctan2 (- entry W 0 1 * m2) (entry W 0 0 * m2)).
  destruct (eq_eps (cos a3) 0) eqn:Hband; cbn [negb];
    destruct (Req_dec_T (cos a3) 0) as [Hc|Hc].
  - reflexivity.
  - pose proof (second_argument_agrees (entry W 0 0) (entry W 0 1) m2
                  Hband Hc) as E.
    cbv zeta in E. fold a3 in E. rewrite E. reflexivity.
  - apply eq_eps_false in Hband. destruct eps_pos.
    rewrite Hc, Rminus_0_r, Rabs_R0 in Hband. lra.
  - reflexivity.
Qed.

Lemma entry_rot_block (T : mat) (i j : nat) :
  shape 4 4 T -> (i < 3)%nat -> (j < 3)%nat ->
  entry (rot_block T) i j = entry T i j.
Proof.
  intros HS Hi Hj.
  destruct (shape_4_4_inv _ HS)
    as (a00 & a01 & a02 & a03 & a10 & a11 & a12 & a13 &
        a20 & a21 & a22 & a23 & a30 & a31 & a32 & a33 & ->).
  destruct i as [|[|[|i]]]; try lia; destruct j as [|[|[|j]]]; try lia;
    reflexivity.
Qed.

Lemma spec_angles_rot_block (T : mat) (m2 : R) :
  shape 4 4 T -> spec_angles (rot_block T) m2 = spec_angles T m2.
Proof.
  intros HS. unfold spec_angles.
  rewrite !(entry_rot_block T) by (assumption || lia). reflexivity.
Qed.

Lemma decompose_by_spec_angles (T : mat) :
  shape 4 4 T ->
  eps <= Rabs (entry T 0 2) ->
  decompose_transformation T =
  Ok [translation T ++ spec_angles T (-1); translation T ++ spec_angles T 1].
Proof.
  intros HS Hnd. apply degenerate_false in Hnd.
  rewrite (decompose_ok 4 4 T HS) by lia. rewrite Hnd.
  rewrite !code_angles_spec. reflexivity.
Qed.

(** C4.  For every 4x4 transform [T] (in particular every homogeneous one)
    whose rotation block [W] has [|W[0,2]| >= eps], the decomposition
    evaluates the branch [m2 = -1] and then the branch [m2 = +1]; each
    computes [a3 = atan2(-W[0,1] m2, W[0,0] m2)], then
    [a2 = atan2(W[0,2], W[0,0] / cos a3)] if [cos a3 <> 0] and
    [a2 = atan2(W[0,2], W[0,1] / - sin a3)] otherwise, and
    [a1 = atan2(-W[1,2] / cos a2, W[2,2] / cos a2)]; the two results are
    returned in that order, each behind the translation of [T].  The script
    tests [|cos a3| < eps] rather than [cos a3 = 0]; in exact arithmetic the
    two formulas for [a2] agree wherever the tests differ
    ([second_argument_agrees]). *)
Theorem decompose_nondegenerate (T : mat) :
  shape 4 4 T ->
  eps <= Rabs (entry (rot_block T) 0 2) ->
  decompose_transformation T =
  Ok [translation T ++ spec_angles (rot_block T) (-1);
      translation T ++ spec_angles (rot_block T) 1].
Proof.
  intros HS Hnd.
  rewrite entry_rot_block in Hnd by (assumption || lia).
  rewrite !spec_angles_rot_block by assumption.
  apply decompose_by_spec_angles; assumption.
Qed.

Lemma decompose_nondegenerate_witness :
  shape 4 4 (mk4 0 0 1 4 0 (-1) 0 0 1 0 0 2 0 0 0 1) /\
  eps <= Rabs (entry (rot_block (mk4 0 0 1 4 0 (-1) 0 0 1 0 0 2 0 0 0 1)) 0 2) /\
  decompose_transformation (mk4 0 0 1 4 0 (-1) 0 0 1 0 0 2 0 0 0 1) =
  Ok [translation (mk4 0 0 1 4 0 (-1) 0 0 1 0 0 2 0 0 0 1) ++
        spec_angles (rot_block (mk4 0 0 1 4 0 (-1) 0 0 1 0 0 2 0 0 0 1)) (-1);
      translation (mk4 0 0 1 4 0 (-1) 0 0 1 0 0 2 0 0 0 1) ++
        spec_angles (rot_block (mk4 0 0 1 4 0 (-1) 0 0 1 0 0 2 0 0 0 1)) 1].
Proof.
  assert (HS : shape 4 4 (mk4 0 0 1 4 0 (-1) 0 0 1 0 0 2 0 0 0 1))
    by apply shape_mk4.
  assert (Hnd : eps <= Rabs (entry (rot_block
                  (mk4 0 0 1 4 0 (-1) 0 0 1 0 0 2 0 0 0 1)) 0 2)).
  { unfold entry, rot_block, mk4. cbn [firstn map nth].
    rewrite Rabs_R1. unfold eps. lra. }
  split; [exact HS|]. split; [exact Hnd|].
  exact (decompose_nondegenerate _ HS Hnd).
Defined.

(** C10.  For every 4x4 transform the decomposition returns exactly two
    candidates, so that reading candidate 0 never fails.  When
    [|W[0,2]| < eps], with [eps = 1e-9], each candidate is the 3-vector of the
    translation alone; otherwise each candidate has six entries, the
    translation followed by an angle triple. *)
Theorem decompose_two_candidates (T : mat) :
  shape 4 4 T ->
  eps = 1 / 1000000000 /\
  exists c0 c1,
    decompose_transformation T = Ok [c0; c1] /\
    getitem [c0; c1] 0 = Ok c0 /\
    (Rabs (entry T 0 2) < eps ->
     c0 = translation T /\ c1 = translation T /\
     length c0 = 3%nat /\ length c1 = 3%nat) /\
    (eps <= Rabs (entry T 0 2) ->
     length c0 = 6%nat /\ length c1 = 6%nat /\
     firstn 3 c0 = translation T /\ firstn 3 c1 = translation T).
Proof.
  intros HS. split; [unfold eps; lra|].
  rewrite (decompose_ok 4 4 T HS) by lia.
  destruct (degenerate T) eqn:HD.
  - apply degenerate_true in HD.
    exists (translation T), (translation T).
    repeat split; try reflexivity. all: intros; lra.
  - apply degenerate_false in HD.
    exists (translation T ++ code_angles T (-1)),
           (translation T ++ code_angles T 1).
    split; [reflexivity|]. split; [reflexivity|].
    split; [intros; lra|]. intros _.
    rewrite !code_angles_spec. repeat split; reflexivity.
Qed.

(** ** The Jacobian *)

Lemma col3_shape (M : mat) (j : nat) :
  shape 4 4 M -> (j < 4)%nat ->
  col3 M j = Ok [entry M 0 j; entry M 1 j; entry M 2 j].
Proof.
  intros HS Hj.
  destruct (shape_4_4_inv _ HS)
    as (a00 & a01 & a02 & a03 & a10 & a11 & a12 & a13 &
        a20 & a21 & a22 & a23 & a30 & a31 & a32 & a33 & ->).
  destruct j as [|[|[|[|j]]]]; try lia; reflexivity.
Qed.

Lemma jacobian_six (F1 F2 F3 F4 F5 F6 : mat) :
  Forall (shape 4 4) [F1; F2; F3; F4; F5; F6] ->
  jacobian [F1; F2; F3; F4; F5; F6] =
  Ok (spec_jacobian (base_default :: [F1; F2; F3; F4; F5; F6])).
Proof.
  intros HF.
  repeat match goal with
         | H : Forall _ (_ :: _) |- _ => inversion H; subst; clear H
         end.
  repeat match goal with
         | H : shape 4 4 ?M |- _ =>
             let a00 := fresh "a" in let a01 := fresh "a" in
             let a02 := fresh "a" in let a03 := fresh "a" in
             let a10 := fresh "a" in let a11 := fresh "a" in
             let a12 := fresh "a" in let a13 := fresh "a" in
             let a20 := fresh "a" in let a21 := fresh "a" in
             let a22 := fresh "a" in let a23 := fresh "a" in
             let a30 := fresh "a" in let a31 := fresh "a" in
             let a32 := fresh "a" in let a33 := fresh "a" in
             destruct (shape_4_4_inv _ H)
               as (a00 & a01 & a02 & a03 & a10 & a11 & a12 & a13 &
                   a20 & a21 & a22 & a23 & a30 & a31 & a32 & a33 & ->);
             clear H
         end.
  reflexivity.
Qed.

Lemma spec_jacobian_shape (fks : list mat) : shape 6 6 (spec_jacobian fks).
Proof. split; [reflexivity|]. repeat constructor. Qed.

Lemma spec_jacobian_column (fks : list mat) (i : nat) :
  (i < 6)%nat -> column (spec_jacobian fks) i = spec_column fks i.
Proof.
  intros Hi. do 6 (destruct i as [|i]; [reflexivity|]). lia.
Qed.

Lemma homogeneous_shape (T : mat) : homogeneous T -> shape 4 4 T.
Proof. intros (HS & _). exact HS. Qed.

Lemma chain_shape (q1 q2 q3 q4 q5 q6 : R) :
  Forall (shape 4 4) (chain q1 q2 q3 q4 q5 q6).
Proof.
  eapply Forall_impl; [|apply chain_homogeneous]. apply homogeneous_shape.
Qed.

Lemma jacobian_chain (q1 q2 q3 q4 q5 q6 : R) :
  jacobian (chain q1 q2 q3 q4 q5 q6) =
  Ok (spec_jacobian (base_default :: chain q1 q2 q3 q4 q5 q6)).
Proof. apply jacobian_six, chain_shape. Qed.

(** C3.  For the frames of a joint vector of six reals, listed behind the
    identity base frame, the Jacobian is a 6x6 matrix whose column [i] is
    [z_i x (o_ee - o_i)] followed by [z_i], where [z_i] is the third column
    of the rotation block of frame [i], [o_i] its translation and [o_ee] the
    translation of the last frame: rows 0-2 hold the cross product, rows 3-5
    hold [z_i]. *)
Theorem jacobian_columns (qs : vec) :
  length qs = 6%nat ->
  exists frames J,
    get_fk_solution qs "full" = Ok (Full frames) /\
    jacobian frames = Ok J /\
    shape 6 6 J /\
    forall i, (i < 6)%nat ->
      let fks := base_default :: frames in
      let z_i := z_axis (nth i fks []) in
      let o_i := translation (nth i fks []) in
      let o_ee := translation (last fks []) in
      column J i = cross3 z_i (vminus o_ee o_i) ++ z_i /\
      firstn 3 (column J i) = cross3 z_i (vminus o_ee o_i) /\
      skipn 3 (column J i) = z_i.
Proof.
  intros H.
  destruct (vec6_inv qs H) as (q1 & q2 & q3 & q4 & q5 & q6 & ->).
  exists (chain q1 q2 q3 q4 q5 q6),
         (spec_jacobian (base_default :: chain q1 q2 q3 q4 q5 q6)).
  split; [apply get_fk_full_six|]. split; [apply jacobian_chain|].
  split; [apply spec_jacobian_shape|].
  intros i Hi. cbv zeta. rewrite spec_jacobian_column by exact Hi.
  repeat split; reflexivity.
Qed.

Lemma jacobian_columns_witness :
  length input_initial = 6%nat /\
  exists frames J,
    get_fk_solution input_initial "full" = Ok (Full frames) /\
    jacobian frames = Ok J /\
    shape 6 6 J /\
    forall i, (i < 6)%nat ->
      let fks := base_default :: frames in
      let z_i := z_axis (nth i fks []) in
      let o_i := translation (nth i fks []) in
      let o_ee := translation (last fks []) in
      column J i = cross3 z_i (vminus o_ee o_i) ++ z_i /\
      firstn 3 (column J i) = cross3 z_i (vminus o_ee o_i) /\
      skipn 3 (column J i) = z_i.
Proof.
  split; [reflexivity|]. exact (jacobian_columns input_initial eq_refl).
Defined.

(** ** The vector field *)

Lemma k_value : k = 0.001.
Proof. unfold k, tf, t0, n_steps. lra. Qed.

Lemma mat_vec_ok (J : mat) (v : vec) :
  shape 6 6 J -> length v = 6%nat -> mat_vec J v = Ok (matvec J v).
Proof.
  intros [HL HF] Hv. unfold mat_vec. rewrite Hv.
  replace (forallb (fun row => Nat.eqb (length row) 6) J) with true;
    [reflexivity|].
  symmetry. apply forallb_forall. intros row Hin.
  rewrite Forall_forall in HF. rewrite (HF row Hin). reflexivity.
Qed.

Lemma mat_vec_err (J : mat) (v : vec) :
  shape 6 6 J -> length v <> 6%nat -> mat_vec J v = Raise ValueError.
Proof.
  intros [HL HF] Hv. unfold mat_vec.
  destruct J as [|row J]; [discriminate HL|].
  inversion HF as [|? ? Hrow _]; subst.
  cbn [forallb]. rewrite Hrow.
  destruct (Nat.eqb_spec 6 (length v)) as [E|E]; [congruence|reflexivity].
Qed.

Lemma getlast_chain (q1 q2 q3 q4 q5 q6 : R) :
  getlast (chain q1 q2 q3 q4 q5 q6) = Ok (nth 5 (chain q1 q2 q3 q4 q5 q6) []).
Proof. reflexivity. Qed.

Lemma fk_ee_six (q1 q2 q3 q4 q5 q6 : R) :
  fk_ee [q1; q2; q3; q4; q5; q6] = nth 5 (chain q1 q2 q3 q4 q5 q6) [].
Proof. unfold fk_ee. rewrite get_fk_ee_six. reflexivity. Qed.

Lemma fk_ee_shape (q1 q2 q3 q4 q5 q6 : R) :
  shape 4 4 (fk_ee [q1; q2; q3; q4; q5; q6]).
Proof.
  rewrite fk_ee_six.
  pose proof (chain_shape q1 q2 q3 q4 q5 q6) as H.
  rewrite Forall_forall in H. apply H. unfold chain. cbv zeta. cbn [nth].
  do 5 right. left. reflexivity.
Qed.

(** The vector field once forward kinematics and the Jacobian are known. *)
Lemma state_space_six (x1 : vec) (q1 q2 q3 q4 q5 q6 t : R) :
  let q := [q1; q2; q3; q4; q5; q6] in
  state_space x1 q t =
  (cands <- decompose_transformation (fk_ee q) ;;
   xi <- getitem cands 0 ;;
   d <- vsub x1 xi ;;
   mat_vec (spec_jacobian (base_default :: fk_full q)) (vscale d k)).
Proof.
  cbv zeta. unfold state_space, fk_full.
  rewrite fk_ee_six, get_fk_full_six. cbn [bind].
  rewrite jacobian_chain, getlast_chain. reflexivity.
Qed.

Lemma code_angles_length (W : mat) (m2 : R) : length (code_angles W m2) = 3%nat.
Proof. unfold code_angles. cbv zeta. destruct (negb _); reflexivity. Qed.

(** C1, amended.  For every joint vector [q] of six reals whose end-effector
    frame is not degenerate ([|W[0,2]| >= eps]), every target [x1] of six
    entries and every time [t], the vector field returns [J . D], where [J]
    is the Jacobian of the frames of [q], [D = (x1 - xi) * k], [xi] is the
    first candidate of the decomposition of the end-effector frame and
    [k = (tf - t0) / n_steps = 0.001]; the value does not depend on [t]. *)
Theorem state_space_returns_J_delta (x1 q : vec) (t : R) :
  length q = 6%nat ->
  length x1 = 6%nat ->
  eps <= Rabs (entry (fk_ee q) 0 2) ->
  exists frames J cands xi,
    get_fk_solution q "full" = Ok (Full frames) /\
    jacobian frames = Ok J /\
    decompose_transformation (last frames []) = Ok cands /\
    getitem cands 0 = Ok xi /\
    state_space x1 q t = Ok (matvec J (vscale (vminus x1 xi) k)) /\
    k = (tf - t0) / n_steps /\ k = 0.001 /\
    forall t', state_space x1 q t' = state_space x1 q t.
Proof.
  intros Hq Hx Hnd.
  destruct (vec6_inv q Hq) as (q1 & q2 & q3 & q4 & q5 & q6 & ->).
  pose proof (fk_ee_shape q1 q2 q3 q4 q5 q6) as HS.
  apply degenerate_false in Hnd.
  pose proof (decompose_ok 4 4 _ HS ltac:(lia) ltac:(lia)) as HD.
  rewrite Hnd in HD.
  set (T := fk_ee [q1; q2; q3; q4; q5; q6]) in *.
  exists (chain q1 q2 q3 q4 q5 q6),
         (spec_jacobian (base_default :: chain q1 q2 q3 q4 q5 q6)),
         [translation T ++ code_angles T (-1); translation T ++ code_angles T 1],
         (translation T ++ code_angles T (-1)).
  split; [apply get_fk_full_six|]. split; [apply jacobian_chain|].
  split; [rewrite <- HD; unfold T; rewrite fk_ee_six; reflexivity|].
  split; [reflexivity|].
  assert (HL : length (translation T ++ code_angles T (-1)) = 6%nat)
    by (rewrite length_app, code_angles_length; reflexivity).
  set (J := spec_jacobian (base_default :: chain q1 q2 q3 q4 q5 q6)).
  set (xi := translation T ++ code_angles T (-1)) in *.
  assert (E : forall t', state_space x1 [q1; q2; q3; q4; q5; q6] t' =
                         Ok (matvec J (vscale (vminus x1 xi) k))).
  { intros t'. rewrite state_space_six. fold T. rewrite HD.
    cbn [bind getitem nth_error]. fold xi.
    unfold vsub. rewrite Hx, HL. cbn [Nat.eqb bind].
    fold (vminus x1 xi).
    unfold fk_full. rewrite get_fk_full_six. fold J.
    apply mat_vec_ok; [apply spec_jacobian_shape|].
    unfold vscale, vminus. rewrite !length_map, length_combine, Hx, HL.
    reflexivity. }
  split; [apply E|]. split; [reflexivity|]. split; [apply k_value|].
  intros t'. rewrite !E. reflexivity.
Qed.

Lemma fk_ee_zero_w02 : entry (fk_ee input_initial) 0 2 = 1.
Proof.
  unfold input_initial. rewrite fk_ee_fifth. unfold entry, mk4. cbn [nth].
  apply cos_0.
Qed.

Lemma state_space_returns_J_delta_witness :
  length input_initial = 6%nat /\
  length input = 6%nat /\
  eps <= Rabs (entry (fk_ee input_initial) 0 2) /\
  exists frames J cands xi,
    get_fk_solution input_initial "full" = Ok (Full frames) /\
    jacobian frames = Ok J /\
    decompose_transformation (last frames []) = Ok cands /\
    getitem cands 0 = Ok xi /\
    state_space input input_initial 0 =
      Ok (matvec J (vscale (vminus input xi) k)) /\
    k = (tf - t0) / n_steps /\ k = 0.001 /\
    forall t', state_space input input_initial t' =
               state_space input input_initial 0.
Proof.
  assert (Hnd : eps <= Rabs (entry (fk_ee input_initial) 0 2)).
  { rewrite fk_ee_zero_w02, Rabs_R1. unfold eps. lra. }
  split; [reflexivity|]. split; [reflexivity|]. split; [exact Hnd|].
  exact (state_space_returns_J_delta input input_initial 0 eq_refl eq_refl Hnd).
Defined.

(** The configuration in which only the fifth joint is turned, by a quarter
    turn: the entry [W[0,2]] of its end-effector frame vanishes. *)
Lemma fk_ee_quarter :
  fk_ee [0; 0; 0; 0; PI / 2; 0] =
  mk4 1 0 0 2  0 (-1) 0 0  0 0 (-1) 0  0 0 0 1.
Proof.
  rewrite fk_ee_fifth, cos_PI2, sin_PI2. f_equal; ring.
Qed.

Lemma decompose_quarter :
  decompose_transformation (fk_ee [0; 0; 0; 0; PI / 2; 0]) =
  Ok [[2; 0; 0]; [2; 0; 0]].
Proof.
  rewrite fk_ee_quarter.
  rewrite (decompose_ok 4 4) by (apply shape_mk4 || lia).
  replace (degenerate (mk4 1 0 0 2 0 (-1) 0 0 0 0 (-1) 0 0 0 0 1)) with true;
    [reflexivity|].
  symmetry. apply degenerate_true. unfold entry, mk4. cbn [nth].
  rewrite Rabs_R0. unfold eps. lra.
Qed.

Lemma state_space_quarter (x1 : vec) (t : R) :
  state_space x1 [0; 0; 0; 0; PI / 2; 0] t = Raise ValueError.
Proof.
  rewrite state_space_six, decompose_quarter. cbn [bind getitem nth_error].
  set (J := spec_jacobian _).
  assert (HJ : shape 6 6 J) by apply spec_jacobian_shape.
  destruct x1 as [|a [|b [|c [|d x1]]]].
  - reflexivity.
  - unfold vsub. cbn [length Nat.eqb bind map].
    apply mat_vec_err; [exact HJ|]. cbn. lia.
  - reflexivity.
  - unfold vsub. cbn [length Nat.eqb bind map combine].
    apply mat_vec_err; [exact HJ|]. cbn. lia.
  - reflexivity.
Qed.

(** C1 as stated fails: with the fifth joint at a quarter turn the first
    candidate has three entries and the vector field raises, whatever the
    target and the time. *)
Lemma state_space_fails_at_quarter_turn :
  ~ (exists x1 t v, state_space x1 [0; 0; 0; 0; PI / 2; 0] t = Ok v).
Proof.
  intros (x1 & t & v & H). rewrite state_space_quarter in H. discriminate H.
Qed.

(** ** Rebuilding the rotation block from an angle triple *)

Lemma rotation_columns a00 a01 a02 a10 a11 a12 a20 a21 a22 :
  is_rotation (mk3 a00 a01 a02 a10 a11 a12 a20 a21 a22) ->
  (a00 * a00 + a10 * a10 + a20 * a20 = 1 /\
   a00 * a01 + a10 * a11 + a20 * a21 = 0 /\
   a00 * a02 + a10 * a12 + a20 * a22 = 0) /\
  (a01 * a00 + a11 * a10 + a21 * a20 = 0 /\
   a01 * a01 + a11 * a11 + a21 * a21 = 1 /\
   a01 * a02 + a11 * a12 + a21 * a22 = 0) /\
  (a02 * a00 + a12 * a10 + a22 * a20 = 0 /\
   a02 * a01 + a12 * a11 + a22 * a21 = 0 /\
   a02 * a02 + a12 * a12 + a22 * a22 = 1) /\
  a00 * (a11 * a22 - a12 * a21) - a01 * (a10 * a22 - a12 * a20)
  + a02 * (a10 * a21 - a11 * a20) = 1.
Proof.
  intros (_ & HO & HD).
  rewrite transpose_mk3, matmul_mk3, eye3_mk3 in HO. unfold mk3 in HO.
  injection HO as H00 H01 H02 H10 H11 H12 H20 H21 H22.
  rewrite det3_mk3 in HD. auto 20.
Qed.

(** Every entry of a rotation matrix is its own cofactor. *)
Lemma rotation_cofactors a00 a01 a02 a10 a11 a12 a20 a21 a22 :
  is_rotation (mk3 a00 a01 a02 a10 a11 a12 a20 a21 a22) ->
  a00 = a11 * a22 - a12 * a21 /\
  a01 = a12 * a20 - a10 * a22 /\
  a02 = a10 * a21 - a11 * a20 /\
  a10 = a02 * a21 - a01 * a22 /\
  a11 = a00 * a22 - a02 * a20 /\
  a12 = a01 * a20 - a00 * a21 /\
  a20 = a01 * a12 - a02 * a11 /\
  a21 = a02 * a10 - a00 * a12 /\
  a22 = a00 * a11 - a01 * a10.
Proof.
  intros HR.
  destruct (rotation_columns _ _ _ _ _ _ _ _ _ HR)
    as ((G00 & G01 & G02) & (G10 & G11 & G12) & (G20 & G21 & G22) & HD).
  set (D := a00 * (a11 * a22 - a12 * a21) - a01 * (a10 * a22 - a12 * a20)
            + a02 * (a10 * a21 - a11 * a20)) in *.
  set (C00 := a11 * a22 - a12 * a21). set (C01 := a12 * a20 - a10 * a22).
  set (C02 := a10 * a21 - a11 * a20). set (C10 := a02 * a21 - a01 * a22).
  set (C11 := a00 * a22 - a02 * a20). set (C12 := a01 * a20 - a00 * a21).
  set (C20 := a01 * a12 - a02 * a11). set (C21 := a02 * a10 - a00 * a12).
  set (C22 := a00 * a11 - a01 * a10).
  assert (E00 : a00 * D = (a00 * a00 + a10 * a10 + a20 * a20) * C00
                          + (a00 * a01 + a10 * a11 + a20 * a21) * C01
                          + (a00 * a02 + a10 * a12 + a20 * a22) * C02)
    by (unfold D, C00, C01, C02; ring).
  assert (E01 : a01 * D = (a01 * a00 + a11 * a10 + a21 * a20) * C00
                          + (a01 * a01 + a11 * a11 + a21 * a21) * C01
                          + (a01 * a02 + a11 * a12 + a21 * a22) * C02)
    by (unfold D, C00, C01, C02; ring).
  assert (E02 : a02 * D = (a02 * a00 + a12 * a10 + a22 * a20) * C00
                          + (a02 * a01 + a12 * a11 + a22 * a21) * C01
                          + (a02 * a02 + a12 * a12 + a22 * a22) * C02)
    by (unfold D, C00, C01, C02; ring).
  assert (E10 : a10 * D = (a00 * a00 + a10 * a10 + a20 * a20) * C10
                          + (a00 * a01 + a10 * a11 + a20 * a21) * C11
                          + (a00 * a02 + a10 * a12 + a20 * a22) * C12)
    by (unfold D, C10, C11, C12; ring).
  assert (E11 : a11 * D = (a01 * a00 + a11 * a10 + a21 * a20) * C10
                          + (a01 * a01 + a11 * a11 + a21 * a21) * C11
                          + (a01 * a02 + a11 * a12 + a21 * a22) * C12)
    by (unfold D, C10, C11, C12; ring).
  assert (E12 : a12 * D = (a02 * a00 + a12 * a10 + a22 * a20) * C10
                          + (a02 * a01 + a12 * a11 + a22 * a21) * C11
                          + (a02 * a02 + a12 * a12 + a22 * a22) * C12)
    by (unfold D, C10, C11, C12; ring).
  assert (E20 : a20 * D = (a00 * a00 + a10 * a10 + a20 * a20) * C20
                          + (a00 * a01 + a10 * a11 + a20 * a21) * C21
                          + (a00 * a02 + a10 * a12 + a20 * a22) * C22)
    by (unfold D, C20, C21, C22; ring).
  assert (E21 : a21 * D = (a01 * a00 + a11 * a10 + a21 * a20) * C20
                          + (a01 * a01 + a11 * a11 + a21 * a21) * C21
                          + (a01 * a02 + a11 * a12 + a21 * a22) * C22)
    by (unfold D, C20, C21, C22; ring).
  assert (E22 : a22 * D = (a02 * a00 + a12 * a10 + a22 * a20) * C20
                          + (a02 * a01 + a12 * a11 + a22 * a21) * C21
                          + (a02 * a02 + a12 * a12 + a22 * a22) * C22)
    by (unfold D, C20, C21, C22; ring).
  rewrite HD in *.
  rewrite G00, G01, G02 in E00, E10, E20.
  rewrite G10, G11, G12 in E01, E11, E21.
  rewrite G20, G21, G22 in E02, E12, E22.
  repeat split; lra.
Qed.

(** The rows of a rotation matrix are unit vectors too (first row). *)
Lemma rotation_first_row a00 a01 a02 a10 a11 a12 a20 a21 a22 :
  is_rotation (mk3 a00 a01 a02 a10 a11 a12 a20 a21 a22) ->
  a00 * a00 + a01 * a01 + a02 * a02 = 1.
Proof.
  intros HR.
  destruct (rotation_cofactors _ _ _ _ _ _ _ _ _ HR)
    as (E00 & E01 & E02 & _).
  destruct (rotation_columns _ _ _ _ _ _ _ _ _ HR) as (_ & _ & _ & HD).
  rewrite E00 at 2. rewrite E01 at 2. rewrite E02 at 2.
  rewrite <- HD. ring.
Qed.

Lemma rebuild_closed (a1 a2 a3 : R) :
  rebuild a1 a2 a3 =
  mk3 (cos a2 * cos a3) (- cos a2 * sin a3) (sin a2)
      (cos a1 * sin a3 + sin a1 * sin a2 * cos a3)
      (cos a1 * cos a3 - sin a1 * sin a2 * sin a3)
      (- sin a1 * cos a2)
      (sin a1 * sin a3 - cos a1 * sin a2 * cos a3)
      (sin a1 * cos a3 + cos a1 * sin a2 * sin a3)
      (cos a1 * cos a2).
Proof.
  unfold rebuild, rot_symb.
  fold (mk4 1 0 0 0 0 (cos a1) (- sin a1) 0 0 (sin a1) (cos a1) 0 0 0 0 1).
  fold (mk4 (cos a2) 0 (sin a2) 0 0 1 0 0 (- sin a2) 0 (cos a2) 0 0 0 0 1).
  fold (mk4 (cos a3) (- sin a3) 0 0 (sin a3) (cos a3) 0 0 0 0 1 0 0 0 0 1).
  rewrite !matmul_mk4, rot_block_mk4. f_equal; ring.
Qed.

(** The algebra of the reconstruction. *)
Lemma reconstruct_entries
  (w00 w01 w02 w10 w11 w12 w20 w21 w22 c1 s1 c2 s2 c3 s3 : R) :
  is_rotation (mk3 w00 w01 w02 w10 w11 w12 w20 w21 w22) ->
  c2 <> 0 -> c2 * c2 = 1 - w02 * w02 ->
  c2 * c3 = w00 -> c2 * s3 = - w01 -> s2 = w02 ->
  c1 * c2 = w22 -> s1 * c2 = - w12 ->
  mk3 (c2 * c3) (- c2 * s3) s2
      (c1 * s3 + s1 * s2 * c3) (c1 * c3 - s1 * s2 * s3) (- s1 * c2)
      (s1 * s3 - c1 * s2 * c3) (s1 * c3 + c1 * s2 * s3) (c1 * c2) =
  mk3 w00 w01 w02 w10 w11 w12 w20 w21 w22.
Proof.
  intros HR Hc2 K P1 P2 P3 P4 P5.
  destruct (rotation_cofactors _ _ _ _ _ _ _ _ _ HR)
    as (_ & _ & _ & E10 & E11 & _ & E20 & E21 & _).
  assert (Hcc : c2 * c2 <> 0) by (apply Rmult_integral_contrapositive; tauto).
  f_equal; try lra.
  - apply Rmult_eq_reg_r with (c2 * c2); [|exact Hcc].
    replace ((c1 * s3 + s1 * s2 * c3) * (c2 * c2))
      with ((c1 * c2) * (c2 * s3) + (s1 * c2) * s2 * (c2 * c3)) by ring.
    rewrite P1, P2, P3, P4, P5, K. nra.
  - apply Rmult_eq_reg_r with (c2 * c2); [|exact Hcc].
    replace ((c1 * c3 - s1 * s2 * s3) * (c2 * c2))
      with ((c1 * c2) * (c2 * c3) - (s1 * c2) * s2 * (c2 * s3)) by ring.
    rewrite P1, P2, P3, P4, P5, K. nra.
  - apply Rmult_eq_reg_r with (c2 * c2); [|exact Hcc].
    replace ((s1 * s3 - c1 * s2 * c3) * (c2 * c2))
      with ((s1 * c2) * (c2 * s3) - (c1 * c2) * s2 * (c2 * c3)) by ring.
    rewrite P1, P2, P3, P4, P5, K. nra.
  - apply Rmult_eq_reg_r with (c2 * c2); [|exact Hcc].
    replace ((s1 * c3 + c1 * s2 * s3) * (c2 * c2))
      with ((s1 * c2) * (c2 * c3) + (c1 * c2) * s2 * (c2 * s3)) by ring.
    rewrite P1, P2, P3, P4, P5, K. nra.
Qed.

Lemma spec_angles_rebuild
  (w00 w01 w02 w10 w11 w12 w20 w21 w22 m2 : R) :
  let W := mk3 w00 w01 w02 w10 w11 w12 w20 w21 w22 in
  is_rotation W -> Rabs w02 < 1 -> m2 * m2 = 1 ->
  exists a1 a2 a3,
    spec_angles W m2 = [a1; a2; a3] /\ rebuild a1 a2 a3 = W.
Proof.
  intros W HR Hw Hm.
  pose proof (rotation_first_row _ _ _ _ _ _ _ _ _ HR) as Hrow.
  destruct (rotation_columns _ _ _ _ _ _ _ _ _ HR)
    as (_ & _ & (_ & _ & Hcol) & _).
  destruct (Rabs_def2 _ _ Hw) as [Hlo Hhi].
  assert (Hpos : 0 < 1 - w02 * w02) by nra.
  unfold spec_angles, W, entry, mk3. cbn [nth].
  set (a3 := arctan2 (- w01 * m2) (w00 * m2)).
  destruct (arctan2_polar (- w01 * m2) (w00 * m2)) as [Pc Ps].
  fold a3 in Pc, Ps.
  destruct (norm_sq (w00 * m2) (- w01 * m2)) as [Hr0 Hrr].
  set (r := sqrt (w00 * m2 * (w00 * m2) + - w01 * m2 * (- w01 * m2))) in *.
  assert (Hr2 : r * r = 1 - w02 * w02).
  { rewrite Hrr.
    replace (w00 * m2 * (w00 * m2) + - w01 * m2 * (- w01 * m2))
      with ((w00 * w00 + w01 * w01) * (m2 * m2)) by ring.
    rewrite Hm. lra. }
  assert (Hr : r <> 0) by nra.
  pose proof (sin_cos_sq a3) as Hsc.
  (* the second argument of a2 is m2 * r in both cases *)
  set (X := if Req_dec_T (cos a3) 0
            then w01 / - sin a3 else w00 / cos a3).
  assert (HX : X = m2 * r).
  { unfold X. destruct (Req_dec_T (cos a3) 0) as [Hc|Hc].
    - assert (Hs : sin a3 <> 0) by nra.
      assert (E : w01 = - (m2 * r) * sin a3).
      { replace w01 with (- (- w01 * m2) * m2)
          by (rewrite <- (Rmult_1_r w01) at 2; rewrite <- Hm; ring).
        rewrite <- Ps. ring. }
      rewrite E at 1. field. exact Hs.
    - assert (E : w00 = (m2 * r) * cos a3).
      { replace w00 with ((w00 * m2) * m2)
          by (rewrite <- (Rmult_1_r w00) at 2; rewrite <- Hm; ring).
        rewrite <- Pc. ring. }
      rewrite E at 1. field. exact Hc. }
  set (a2 := if Req_dec_T (cos a3) 0
             then arctan2 w02 (w01 / - sin a3)
             else arctan2 w02 (w00 / cos a3)).
  assert (Ha2 : a2 = arctan2 w02 X).
  { unfold a2, X. destruct (Req_dec_T (cos a3) 0); reflexivity. }
  assert (HX1 : X * X + w02 * w02 = 1).
  { rewrite HX. replace (m2 * r * (m2 * r)) with ((m2 * m2) * (r * r)) by ring.
    rewrite Hm, Hr2. ring. }
  destruct (arctan2_unit w02 X HX1) as [C2 S2].
  rewrite <- Ha2 in C2, S2.
  assert (Hc2 : cos a2 <> 0).
  { rewrite C2, HX. apply Rmult_integral_contrapositive. split; [nra|exact Hr]. }
  assert (K : cos a2 * cos a2 = 1 - w02 * w02) by (rewrite C2; lra).
  set (a1 := arctan2 (- w12 / cos a2) (w22 / cos a2)).
  assert (H1 : w22 / cos a2 * (w22 / cos a2)
               + - w12 / cos a2 * (- w12 / cos a2) = 1).
  { replace (w22 / cos a2 * (w22 / cos a2) + - w12 / cos a2 * (- w12 / cos a2))
      with ((w22 * w22 + w12 * w12) / (cos a2 * cos a2)) by (field; exact Hc2).
    rewrite K. replace (w22 * w22 + w12 * w12) with (1 - w02 * w02) by lra.
    field. lra. }
  destruct (arctan2_unit _ _ H1) as [C1 S1]. fold a1 in C1, S1.
  exists a1, a2, a3. split; [reflexivity|].
  rewrite rebuild_closed.
  unfold W. apply reconstruct_entries; try assumption.
  - rewrite C2, HX.
    replace (m2 * r * cos a3) with (m2 * (r * cos a3)) by ring.
    rewrite Pc. rewrite <- (Rmult_1_r w00) at 2. rewrite <- Hm. ring.
  - rewrite C2, HX.
    replace (m2 * r * sin a3) with (m2 * (r * sin a3)) by ring.
    rewrite Ps. rewrite <- (Rmult_1_r w01) at 2. rewrite <- Hm. ring.
  - rewrite C1. field. exact Hc2.
  - rewrite S1. field. exact Hc2.
Qed.

(** ** The round trip *)

Lemma fk_ee_homogeneous (q1 q2 q3 q4 q5 q6 : R) :
  homogeneous (fk_ee [q1; q2; q3; q4; q5; q6]).
Proof.
  rewrite fk_ee_six.
  pose proof (chain_homogeneous q1 q2 q3 q4 q5 q6) as H.
  rewrite Forall_forall in H. apply H. unfold chain. cbv zeta. cbn [nth].
  do 5 right. left. reflexivity.
Qed.

Lemma close3_refl (tol : R) (A : mat) : 0 < tol -> close3 tol A A.
Proof.
  intros Ht i j _ _. rewrite Rminus_diag, Rabs_R0. exact Ht.
Qed.

(** C6, amended.  For every joint vector of six reals whose end-effector
    rotation block [W] has [eps <= |W[0,2]| < 1], the decomposition of the
    end-effector frame yields two candidates, and the angle triple of each,
    rebuilt as the rotation about x by [a1], then y by [a2], then z by [a3],
    is the rotation block itself; so the round trip holds within [1e-6]. *)
Theorem roundtrip_away_from_poles (qs : vec) :
  length qs = 6%nat ->
  eps <= Rabs (entry (fk_ee qs) 0 2) ->
  Rabs (entry (fk_ee qs) 0 2) < 1 ->
  roundtrip 0.000001 qs /\
  exists T c0 c1,
    get_fk_solution qs "ee" = Ok (EE T) /\
    decompose_transformation T = Ok [c0; c1] /\
    forall c, In c [c0; c1] ->
              exists a1 a2 a3,
                c = translation T ++ [a1; a2; a3] /\
                rebuild a1 a2 a3 = rot_block T.
Proof.
  intros Hq Hnd Hpole.
  destruct (vec6_inv qs Hq) as (q1 & q2 & q3 & q4 & q5 & q6 & ->).
  pose proof (fk_ee_homogeneous q1 q2 q3 q4 q5 q6) as HH.
  assert (Hfk : get_fk_solution [q1; q2; q3; q4; q5; q6] "ee" =
                Ok (EE (fk_ee [q1; q2; q3; q4; q5; q6])))
    by (rewrite fk_ee_six; apply get_fk_ee_six).
  set (T := fk_ee [q1; q2; q3; q4; q5; q6]) in *.
  pose proof (homogeneous_shape T HH) as HS.
  pose proof (decompose_by_spec_angles T HS Hnd) as HD.
  rewrite <- !(spec_angles_rot_block T) in HD by exact HS.
  destruct (homogeneous_inv T HH)
    as (r00 & r01 & r02 & x & r10 & r11 & r12 & y & r20 & r21 & r22 & z
        & ET & HR).
  assert (EW : rot_block T = mk3 r00 r01 r02 r10 r11 r12 r20 r21 r22)
    by (rewrite ET; apply rot_block_mk4).
  assert (Hw : Rabs r02 < 1)
    by (rewrite ET in Hpole; exact Hpole).
  destruct (spec_angles_rebuild r00 r01 r02 r10 r11 r12 r20 r21 r22 (-1)
              HR Hw ltac:(lra)) as (a1 & a2 & a3 & Em & Rm).
  destruct (spec_angles_rebuild r00 r01 r02 r10 r11 r12 r20 r21 r22 1
              HR Hw ltac:(lra)) as (b1 & b2 & b3 & Ep & Rp).
  cbv zeta in Em, Rm, Ep, Rp. rewrite <- EW in Em, Rm, Ep, Rp.
  rewrite Em, Ep in HD.
  split.
  - exists T, [translation T ++ [a1; a2; a3]; translation T ++ [b1; b2; b3]],
           (entry T 0 3), (entry T 1 3), (entry T 2 3), a1, a2, a3.
    split; [exact Hfk|]. split; [exact HD|]. split; [left; reflexivity|].
    rewrite Rm. apply close3_refl. lra.
  - exists T, (translation T ++ [a1; a2; a3]), (translation T ++ [b1; b2; b3]).
    split; [exact Hfk|]. split; [exact HD|].
    intros c [<-|[<-|[]]]; eauto.
Qed.

Lemma fk_ee_third_w02 : entry (fk_ee [0; 0; 0; 0; PI / 3; 0]) 0 2 = 1 / 2.
Proof.
  rewrite fk_ee_fifth. unfold entry, mk4. cbn [nth]. apply cos_PI3.
Qed.

Lemma roundtrip_away_from_poles_witness :
  length [0; 0; 0; 0; PI / 3; 0] = 6%nat /\
  eps <= Rabs (entry (fk_ee [0; 0; 0; 0; PI / 3; 0]) 0 2) /\
  Rabs (entry (fk_ee [0; 0; 0; 0; PI / 3; 0]) 0 2) < 1 /\
  roundtrip 0.000001 [0; 0; 0; 0; PI / 3; 0] /\
  exists T c0 c1,
    get_fk_solution [0; 0; 0; 0; PI / 3; 0] "ee" = Ok (EE T) /\
    decompose_transformation T = Ok [c0; c1] /\
    forall c, In c [c0; c1] ->
              exists a1 a2 a3,
                c = translation T ++ [a1; a2; a3] /\
                rebuild a1 a2 a3 = rot_block T.
Proof.
  assert (H1 : eps <= Rabs (entry (fk_ee [0; 0; 0; 0; PI / 3; 0]) 0 2)).
  { rewrite fk_ee_third_w02, Rabs_pos_eq by lra. unfold eps. lra. }
  assert (H2 : Rabs (entry (fk_ee [0; 0; 0; 0; PI / 3; 0]) 0 2) < 1).
  { rewrite fk_ee_third_w02, Rabs_pos_eq by lra. lra. }
  split; [reflexivity|]. split; [exact H1|]. split; [exact H2|].
  exact (roundtrip_away_from_poles [0; 0; 0; 0; PI / 3; 0] eq_refl H1 H2).
Defined.

(** C6 as stated fails: with the fifth joint at a quarter turn no candidate
    carries an angle triple. *)
Lemma roundtrip_fails_at_quarter_turn :
  ~ roundtrip 0.000001 [0; 0; 0; 0; PI / 2; 0].
Proof.
  intros (T & cands & x & y & z & a1 & a2 & a3 & Hfk & HD & Hin & _).
  rewrite get_fk_ee_six, <- fk_ee_six in Hfk. injection Hfk as <-.
  rewrite decompose_quarter in HD. injection HD as <-.
  destruct Hin as [H|[H|[]]]; discriminate H.
Qed.

(** C5, amended.  For every valid homogeneous transform the decomposition
    returns exactly two candidates, never an empty sequence.  When
    [|W[0,2]| >= eps] both are poses of six entries: the translation followed
    by the angle triple of the branch [m2 = -1], respectively [m2 = +1].
    When [|W[0,2]| < eps] each branch returns the empty candidate instead of
    failing, and both candidates are the translation alone, three entries
    without an angle triple: no pose is returned then, and a caller has to
    check the candidate it reads. *)
Theorem decompose_poses_or_translations (T : mat) :
  homogeneous T ->
  exists c0 c1,
    decompose_transformation T = Ok [c0; c1] /\
    (eps <= Rabs (entry (rot_block T) 0 2) ->
     go T (-1) = Ok [spec_angles (rot_block T) (-1)] /\
     go T 1 = Ok [spec_angles (rot_block T) 1] /\
     c0 = translation T ++ spec_angles (rot_block T) (-1) /\
     c1 = translation T ++ spec_angles (rot_block T) 1 /\
     length c0 = 6%nat /\ length c1 = 6%nat) /\
    (Rabs (entry (rot_block T) 0 2) < eps ->
     go T (-1) = Ok [[]] /\ go T 1 = Ok [[]] /\
     c0 = translation T /\ c1 = translation T /\
     length c0 = 3%nat /\ length c1 = 3%nat).
Proof.
  intros HH. pose proof (homogeneous_shape T HH) as HS.
  rewrite (decompose_ok 4 4 T HS) by lia.
  rewrite !(go_ok 4 4 T _ HS) by lia.
  rewrite entry_rot_block by (assumption || lia).
  rewrite !spec_angles_rot_block by exact HS.
  rewrite !code_angles_spec.
  destruct (degenerate T) eqn:HD.
  - apply degenerate_true in HD.
    exists (translation T), (translation T).
    split; [reflexivity|]. split; [intros Hnd; lra|].
    intros _. repeat split; reflexivity.
  - apply degenerate_false in HD.
    exists (translation T ++ spec_angles T (-1)),
           (translation T ++ spec_angles T 1).
    split; [reflexivity|]. split; [|intros Hd; lra].
    intros _. repeat split; reflexivity.
Qed.

Lemma decompose_poses_or_translations_witness :
  homogeneous (fk_ee [0; 0; 0; 0; PI / 3; 0]) /\
  exists c0 c1,
    decompose_transformation (fk_ee [0; 0; 0; 0; PI / 3; 0]) = Ok [c0; c1] /\
    (eps <= Rabs (entry (rot_block (fk_ee [0; 0; 0; 0; PI / 3; 0])) 0 2) ->
     go (fk_ee [0; 0; 0; 0; PI / 3; 0]) (-1) =
       Ok [spec_angles (rot_block (fk_ee [0; 0; 0; 0; PI / 3; 0])) (-1)] /\
     go (fk_ee [0; 0; 0; 0; PI / 3; 0]) 1 =
       Ok [spec_angles (rot_block (fk_ee [0; 0; 0; 0; PI / 3; 0])) 1] /\
     c0 = translation (fk_ee [0; 0; 0; 0; PI / 3; 0]) ++
          spec_angles (rot_block (fk_ee [0; 0; 0; 0; PI / 3; 0])) (-1) /\
     c1 = translation (fk_ee [0; 0; 0; 0; PI / 3; 0]) ++
          spec_angles (rot_block (fk_ee [0; 0; 0; 0; PI / 3; 0])) 1 /\
     length c0 = 6%nat /\ length c1 = 6%nat) /\
    (Rabs (entry (rot_block (fk_ee [0; 0; 0; 0; PI / 3; 0])) 0 2) < eps ->
     go (fk_ee [0; 0; 0; 0; PI / 3; 0]) (-1) = Ok [[]] /\
     go (fk_ee [0; 0; 0; 0; PI / 3; 0]) 1 = Ok [[]] /\
     c0 = translation (fk_ee [0; 0; 0; 0; PI / 3; 0]) /\
     c1 = translation (fk_ee [0; 0; 0; 0; PI / 3; 0]) /\
     length c0 = 3%nat /\ length c1 = 3%nat).
Proof.
  split; [apply fk_ee_homogeneous|].
  exact (decompose_poses_or_translations _
           (fk_ee_homogeneous 0 0 0 0 (PI / 3) 0)).
Defined.

(** C5 as stated fails: the identity is a valid homogeneous transform, its
    rotation block has [W[0,2] = 0], and the decomposition returns two
    candidates of three entries each, none of them a pose of six entries. *)
Lemma identity_decomposes_to_no_pose :
  homogeneous (eye 4) /\
  decompose_transformation (eye 4) = Ok [[0; 0; 0]; [0; 0; 0]] /\
  ~ (exists x y z a1 a2 a3,
        In [x; y; z; a1; a2; a3] [[0; 0; 0]; [0; 0; 0]]).
Proof.
  assert (HH : homogeneous (eye 4)) by exact (homogeneous_trans_symb Ax_x 0).
  split; [exact HH|]. split.
  - rewrite (decompose_ok 4 4 (eye 4) (homogeneous_shape _ HH)) by lia.
    replace (degenerate (eye 4)) with true; [reflexivity|].
    symmetry. apply degenerate_true. unfold entry. cbn [eye map seq nth Nat.eqb].
    rewrite Rabs_R0. unfold eps. lra.
  - intros (x & y & z & a1 & a2 & a3 & [H|[H|[]]]); discriminate H.
Qed.

(** C8, amended.  Shapes are not validated.  A joint vector with fewer than
    six entries makes forward kinematics raise [IndexError]; one with more is
    accepted and only its first six entries are used.  A matrix of [r] rows and
    [c] columns makes the decomposition raise [IndexError] when [r < 3] or
    [c < 4], and is accepted otherwise. *)
Theorem shapes_are_not_validated
  (qs : vec) (flag : string) (r c : nat) (W : mat) :
  shape r c W ->
  ((length qs < 6)%nat -> get_fk_solution qs flag = Raise IndexError) /\
  ((6 <= length qs)%nat ->
   get_fk_solution qs flag = get_fk_solution (firstn 6 qs) flag /\
   exists T, get_fk_solution qs "ee" = Ok (EE T)) /\
  ((r < 3)%nat \/ (c < 4)%nat ->
   decompose_transformation W = Raise IndexError) /\
  ((3 <= r)%nat -> (4 <= c)%nat ->
   exists c0 c1, decompose_transformation W = Ok [c0; c1]).
Proof.
  intros HS. split; [apply fk_short_vector|]. split; [apply fk_long_vector|].
  split; [apply (decompose_err r c W HS)|].
  intros Hr Hc. rewrite (decompose_ok r c W HS Hr Hc).
  destruct (degenerate W); eauto.
Qed.

Lemma shapes_are_not_validated_witness :
  shape 5 5 (eye 5) /\
  ((length [0; 0; 0; 0; 0; 0; 1] < 6)%nat ->
   get_fk_solution [0; 0; 0; 0; 0; 0; 1] "ee" = Raise IndexError) /\
  ((6 <= length [0; 0; 0; 0; 0; 0; 1])%nat ->
   get_fk_solution [0; 0; 0; 0; 0; 0; 1] "ee" =
   get_fk_solution (firstn 6 [0; 0; 0; 0; 0; 0; 1]) "ee" /\
   exists T, get_fk_solution [0; 0; 0; 0; 0; 0; 1] "ee" = Ok (EE T)) /\
  ((5 < 3)%nat \/ (5 < 4)%nat ->
   decompose_transformation (eye 5) = Raise IndexError) /\
  ((3 <= 5)%nat -> (4 <= 5)%nat ->
   exists c0 c1, decompose_transformation (eye 5) = Ok [c0; c1]).
Proof.
  assert (HS : shape 5 5 (eye 5)) by (split; [reflexivity|repeat constructor]).
  split; [exact HS|].
  exact (shapes_are_not_validated [0; 0; 0; 0; 0; 0; 1] "ee" 5 5 (eye 5) HS).
Defined.

(** C8 as stated fails: a joint vector of seven entries and a 5x5 matrix are
    accepted. *)
Lemma wrong_shapes_are_accepted :
  (length [0; 0; 0; 0; 0; 0; 1] <> 6%nat /\
   exists T, get_fk_solution [0; 0; 0; 0; 0; 0; 1] "ee" = Ok (EE T)) /\
  (~ shape 4 4 (eye 5) /\
   exists cands, decompose_transformation (eye 5) = Ok cands).
Proof.
  assert (HS : shape 5 5 (eye 5)) by (split; [reflexivity|repeat constructor]).
  split; split.
  - discriminate.
  - apply (fk_long_vector [0; 0; 0; 0; 0; 0; 1] "ee"). cbn. lia.
  - intros [HL _]. discriminate HL.
  - rewrite (decompose_ok 5 5 (eye 5) HS) by lia.
    destruct (degenerate (eye 5)); eauto.
Qed.

(** Witnesses of [frames_are_homogeneous] and [decompose_two_candidates]. *)
Lemma frames_are_homogeneous_witness :
  length input_initial = 6%nat /\
  (forall i angle, (1 <= i <= 6)%nat -> homogeneous (transform i angle)) /\
  exists frames T,
    get_fk_solution input_initial "full" = Ok (Full frames) /\
    length frames = 6%nat /\
    Forall homogeneous frames /\
    get_fk_solution input_initial "ee" = Ok (EE T) /\
    homogeneous T.
Proof.
  split; [reflexivity|]. exact (frames_are_homogeneous input_initial eq_refl).
Defined.

Lemma decompose_two_candidates_witness :
  shape 4 4 (eye 4) /\
  eps = 1 / 1000000000 /\
  exists c0 c1,
    decompose_transformation (eye 4) = Ok [c0; c1] /\
    getitem [c0; c1] 0 = Ok c0 /\
    (Rabs (entry (eye 4) 0 2) < eps ->
     c0 = translation (eye 4) /\ c1 = translation (eye 4) /\
     length c0 = 3%nat /\ length c1 = 3%nat) /\
    (eps <= Rabs (entry (eye 4) 0 2) ->
     length c0 = 6%nat /\ length c1 = 6%nat /\
     firstn 3 c0 = translation (eye 4) /\ firstn 3 c1 = translation (eye 4)).
Proof.
  assert (HS : shape 4 4 (eye 4)) by (split; [reflexivity|repeat constructor]).
  split; [exact HS|]. exact (decompose_two_candidates (eye 4) HS).
Defined.

(** * Further properties of the script *)

Ltac as_mk4 H :=
  let a00 := fresh "a00" in let a01 := fresh "a01" in
  let a02 := fresh "a02" in let a03 := fresh "a03" in
  let a10 := fresh "a10" in let a11 := fresh "a11" in
  let a12 := fresh "a12" in let a13 := fresh "a13" in
  let a20 := fresh "a20" in let a21 := fresh "a21" in
  let a22 := fresh "a22" in let a23 := fresh "a23" in
  let a30 := fresh "a30" in let a31 := fresh "a31" in
  let a32 := fresh "a32" in let a33 := fresh "a33" in
  destruct (shape_4_4_inv _ H)
    as (a00 & a01 & a02 & a03 & a10 & a11 & a12 & a13 &
        a20 & a21 & a22 & a23 & a30 & a31 & a32 & a33 & ->).

Lemma matmul_shape4 (A B : mat) :
  shape 4 4 A -> shape 4 4 B -> shape 4 4 (matmul A B).
Proof.
  intros HA HB. as_mk4 HA. as_mk4 HB. rewrite matmul_mk4. apply shape_mk4.
Qed.

Lemma matmul_assoc4 (A B C : mat) :
  shape 4 4 A -> shape 4 4 B -> shape 4 4 C ->
  matmul (matmul A B) C = matmul A (matmul B C).
Proof.
  intros HA HB HC. as_mk4 HA. as_mk4 HB. as_mk4 HC.
  rewrite !matmul_mk4. f_equal; ring.
Qed.

Lemma matmul_eye4_l (A : mat) : shape 4 4 A -> matmul (eye 4) A = A.
Proof.
  intros HA. as_mk4 HA. rewrite eye4_mk4, matmul_mk4. f_equal; ring.
Qed.

Lemma matmul_eye4_r (A : mat) : shape 4 4 A -> matmul A (eye 4) = A.
Proof.
  intros HA. as_mk4 HA. rewrite eye4_mk4, matmul_mk4. f_equal; ring.
Qed.

Lemma rot_symb_mk4 (a : axis) (q : R) :
  rot_symb a q =
  match a with
  | Ax_z => mk4 (cos q) (- sin q) 0 0 (sin q) (cos q) 0 0 0 0 1 0 0 0 0 1
  | Ax_y => mk4 (cos q) 0 (sin q) 0 0 1 0 0 (- sin q) 0 (cos q) 0 0 0 0 1
  | Ax_x => mk4 1 0 0 0 0 (cos q) (- sin q) 0 0 (sin q) (cos q) 0 0 0 0 1
  end.
Proof. destruct a; reflexivity. Qed.

Lemma trans_symb_mk4 (a : axis) (d : R) :
  trans_symb a d =
  match a with
  | Ax_z => mk4 1 0 0 0 0 1 0 0 0 0 1 d 0 0 0 1
  | Ax_y => mk4 1 0 0 0 0 1 0 d 0 0 1 0 0 0 0 1
  | Ax_x => mk4 1 0 0 d 0 1 0 0 0 0 1 0 0 0 0 1
  end.
Proof. destruct a; reflexivity. Qed.

(** X1.  Rotations about one axis form a group under the matrix product:
    the rotation by [p + q] is the product of the rotations by [p] and by
    [q], the rotation by [0] is the identity, the rotation by [- q] is the
    inverse of the rotation by [q], and two rotations about the same axis
    commute. *)
Theorem rot_symb_group (a : axis) (p q : R) :
  rot_symb a (p + q) = matmul (rot_symb a p) (rot_symb a q) /\
  rot_symb a 0 = eye 4 /\
  matmul (rot_symb a q) (rot_symb a (- q)) = eye 4 /\
  matmul (rot_symb a p) (rot_symb a q) = matmul (rot_symb a q) (rot_symb a p).
Proof.
  pose proof (sin_cos_sq q) as Hq.
  rewrite !rot_symb_mk4, eye4_mk4.
  destruct a; rewrite !matmul_mk4, ?cos_plus, ?sin_plus, ?cos_0, ?sin_0,
    ?cos_neg, ?sin_neg; repeat split; f_equal; try ring; nra.
Qed.

(** X2.  Translations add up under the matrix product, the translation by
    [0] is the identity, translations along any two axes commute, and the
    translation part of their product is the sum of their translation
    parts. *)
Theorem trans_symb_group (a b : axis) (d e : R) :
  trans_symb a (d + e) = matmul (trans_symb a d) (trans_symb a e) /\
  trans_symb a 0 = eye 4 /\
  matmul (trans_symb a d) (trans_symb b e) =
  matmul (trans_symb b e) (trans_symb a d) /\
  translation (matmul (trans_symb a d) (trans_symb b e)) =
  map (fun p => fst p + snd p)
      (combine (translation (trans_symb a d)) (translation (trans_symb b e))).
Proof.
  rewrite !trans_symb_mk4, eye4_mk4.
  destruct a, b; rewrite !matmul_mk4; repeat split;
    try (f_equal; ring);
    unfold translation, entry, mk4; cbn [nth combine map fst snd];
    repeat (apply f_equal2; [ring|]); reflexivity.
Qed.

Lemma get_T_shape (arg : targ) : shape 4 4 (get_T arg).
Proof. apply homogeneous_shape, homogeneous_get_T. Qed.

Lemma running_product_shape (rest : list mat) :
  forall acc, shape 4 4 acc -> Forall (shape 4 4) rest ->
              shape 4 4 (running_product acc rest).
Proof.
  induction rest as [|m rest IH]; intros acc Ha Hr; [exact Ha|].
  inversion Hr; subst. cbn. apply IH; [now apply matmul_shape4|assumption].
Qed.

Lemma running_product_app (l l' : list mat) :
  forall acc,
    running_product acc (l ++ l') = running_product (running_product acc l) l'.
Proof.
  induction l as [|m l IH]; intros acc; [reflexivity|]. cbn. apply IH.
Qed.

Lemma running_product_matmul (rest : list mat) :
  forall A m, shape 4 4 A -> shape 4 4 m -> Forall (shape 4 4) rest ->
              running_product (matmul A m) rest =
              matmul A (running_product m rest).
Proof.
  induction rest as [|x rest IH]; intros A m HA Hm Hr; [reflexivity|].
  inversion Hr; subst. cbn.
  rewrite matmul_assoc4 by assumption.
  apply IH; [assumption | now apply matmul_shape4 | assumption].
Qed.

Lemma map_get_T_shape (args : list targ) : Forall (shape 4 4) (map get_T args).
Proof.
  induction args; constructor; [apply get_T_shape | assumption].
Qed.

(** X3.  Composing a list of steps that is split in two gives the product
    of the two compositions; a single step composes to its own matrix; every
    composition is a valid homogeneous transform. *)
Theorem compose_T_symb_app (a b : targ) (l l' : list targ) :
  compose_T_symb a (l ++ b :: l') =
  matmul (compose_T_symb a l) (compose_T_symb b l') /\
  compose_T_symb a [] = get_T a /\
  homogeneous (compose_T_symb a (l ++ b :: l')).
Proof.
  split; [|split; [reflexivity|apply homogeneous_compose_T_symb]].
  unfold compose_T_symb.
  rewrite map_app, running_product_app. cbn [map running_product].
  apply running_product_matmul.
  - apply running_product_shape; [apply get_T_shape|apply map_get_T_shape].
  - apply get_T_shape.
  - apply map_get_T_shape.
Qed.

Lemma T_closed_shape (q : R) :
  shape 4 4 (T12 q) /\ shape 4 4 (T23 q) /\ shape 4 4 (T34 q) /\
  shape 4 4 (T45 q) /\ shape 4 4 (T56 q) /\ shape 4 4 (T6e q).
Proof. repeat split; apply shape_mk4. Qed.

(** X4.  At every angle the six lambdified transitions are the closed forms
    [T12 ... T6e]: the trigonometric constants of the table ([cos (pi/2)],
    [sin (-pi/2)], the shift of the fifth joint by [pi/2]) are gone. *)
Theorem ts_num_table (q : R) :
  map (fun t => t q) ts_num = [T12 q; T23 q; T34 q; T45 q; T56 q; T6e q] /\
  length ts_num = n.
Proof.
  split; [|reflexivity].
  destruct (transform_closed q) as (E1 & E2 & E3 & E4 & E5 & E6).
  rewrite <- E1, <- E2, <- E3, <- E4, <- E5, <- E6. reflexivity.
Qed.

Lemma closed_table_turn (a q : R) :
  T12 (a + q) = matmul (rot_symb Ax_z a) (T12 q) /\
  T23 (a + q) = matmul (rot_symb Ax_z a) (T23 q) /\
  T34 (a + q) = matmul (rot_symb Ax_z a) (T34 q) /\
  T45 (a + q) = matmul (rot_symb Ax_z a) (T45 q) /\
  T56 (a + q) = matmul (rot_symb Ax_z a) (T56 q) /\
  T6e (a + q) = matmul (rot_symb Ax_z a) (T6e q).
Proof.
  rewrite rot_symb_mk4. unfold T12, T23, T34, T45, T56, T6e.
  rewrite !matmul_mk4, cos_plus, sin_plus. repeat split; f_equal; ring.
Qed.

(** X5.  Every joint is revolute about its own z-axis: the transition of
    joint [i] at the angle [a + q] is the rotation about z by [a] times the
    transition at the angle [q]. *)
Theorem transform_turn (i : nat) (a q : R) :
  (1 <= i <= 6)%nat ->
  transform i (a + q) = matmul (rot_symb Ax_z a) (transform i q).
Proof.
  intros Hi.
  destruct (transform_closed q) as (E1 & E2 & E3 & E4 & E5 & E6).
  destruct (transform_closed (a + q)) as (F1 & F2 & F3 & F4 & F5 & F6).
  destruct (closed_table_turn a q) as (G1 & G2 & G3 & G4 & G5 & G6).
  destruct i as [|[|[|[|[|[|[|i]]]]]]]; try lia; congruence.
Qed.

Lemma transform_turn_witness :
  (1 <= 5 <= 6)%nat /\
  transform 5 (1 + 2) = matmul (rot_symb Ax_z 1) (transform 5 2).
Proof.
  split; [lia|]. exact (transform_turn 5 1 2 ltac:(lia)).
Defined.

Lemma fk_symb_loop_six (A B C D E F : mat) :
  fk_symb_loop (seq 0 (n - 1)) [A; B; C; D; E; F] [A] =
  Ok [A; matmul A B; matmul (matmul A B) C;
      matmul (matmul (matmul A B) C) D;
      matmul (matmul (matmul (matmul A B) C) D) E;
      matmul (matmul (matmul (matmul (matmul A B) C) D) E) F].
Proof. reflexivity. Qed.

(** X6.  The symbolic chain [get_fk_symb], evaluated at six joint values,
    is the list of frames that [get_fk_solution] returns for them, and the
    end-effector request returns its last element. *)
Theorem fk_symb_agrees (q1 q2 q3 q4 q5 q6 : R) :
  exists frames,
    get_fk_symb q1 q2 q3 q4 q5 q6 = Ok frames /\
    get_fk_solution [q1; q2; q3; q4; q5; q6] "full" = Ok (Full frames) /\
    get_fk_solution [q1; q2; q3; q4; q5; q6] "ee" = Ok (EE (last frames [])).
Proof.
  exists (chain q1 q2 q3 q4 q5 q6).
  split; [|split; [apply get_fk_full_six | apply get_fk_ee_six]].
  unfold get_fk_symb. fold ts_num. rewrite ts_num_closed.
  cbn [getitem nth_error bind]. apply fk_symb_loop_six.
Qed.

(** X7.  With at least six joint values and a flag that is neither ["ee"]
    nor ["full"], forward kinematics returns [None] without an error. *)
Theorem fk_unknown_flag (qs : vec) (flag : string) :
  (6 <= length qs)%nat ->
  flag <> "ee"%string -> flag <> "full"%string ->
  get_fk_solution qs flag = Ok PyNone.
Proof.
  intros Hq He Hf.
  destruct (fk_long_vector qs flag Hq) as [-> _].
  assert (H6 : length (firstn 6 qs) = 6%nat) by (rewrite length_firstn; lia).
  destruct (vec6_inv _ H6) as (q1 & q2 & q3 & q4 & q5 & q6 & ->).
  unfold get_fk_solution. rewrite ts_num_closed, fk_loop_six. cbn [bind].
  apply String.eqb_neq in He, Hf. rewrite He, Hf. reflexivity.
Qed.

Lemma fk_unknown_flag_witness :
  (6 <= length input_initial)%nat /\
  "all"%string <> "ee"%string /\ "all"%string <> "full"%string /\
  get_fk_solution input_initial "all" = Ok PyNone.
Proof.
  assert (H1 : (6 <= length input_initial)%nat) by (cbn; lia).
  assert (H2 : "all"%string <> "ee"%string) by discriminate.
  assert (H3 : "all"%string <> "full"%string) by discriminate.
  split; [exact H1|]. split; [exact H2|]. split; [exact H3|].
  exact (fk_unknown_flag input_initial "all" H1 H2 H3).
Defined.

Lemma chain_nth_homogeneous (q1 q2 q3 q4 q5 q6 : R) (i : nat) :
  (i < 6)%nat -> homogeneous (nth i (chain q1 q2 q3 q4 q5 q6) []).
Proof.
  intros Hi. pose proof (chain_homogeneous q1 q2 q3 q4 q5 q6) as H.
  rewrite Forall_forall in H. apply H. apply nth_In. exact Hi.
Qed.

(** X8.  The sixth joint only spins the tool: changing its angle leaves
    the first five frames, the end-effector position and the end-effector
    z-axis unchanged, and the end-effector frame is the frame at angle zero
    times the rotation about z by that angle. *)
Theorem sixth_joint_spins_the_tool (q1 q2 q3 q4 q5 q6 q6' : R) :
  firstn 5 (fk_full [q1; q2; q3; q4; q5; q6]) =
  firstn 5 (fk_full [q1; q2; q3; q4; q5; q6']) /\
  translation (fk_ee [q1; q2; q3; q4; q5; q6]) =
  translation (fk_ee [q1; q2; q3; q4; q5; q6']) /\
  z_axis (fk_ee [q1; q2; q3; q4; q5; q6]) =
  z_axis (fk_ee [q1; q2; q3; q4; q5; q6']) /\
  fk_ee [q1; q2; q3; q4; q5; q6] =
  matmul (fk_ee [q1; q2; q3; q4; q5; 0]) (rot_symb Ax_z q6).
Proof.
  unfold fk_full. rewrite !get_fk_full_six, !fk_ee_six.
  split; [reflexivity|].
  pose proof (chain_nth_homogeneous q1 q2 q3 q4 q5 q6 4 ltac:(lia)) as H5.
  unfold chain in *. cbv zeta in *. cbn [nth] in *.
  set (F5 := matmul (matmul (matmul (matmul (T12 q1) (T23 q2)) (T34 q3))
                            (T45 q4)) (T56 q5)) in *.
  destruct (homogeneous_inv F5 H5)
    as (r00 & r01 & r02 & x & r10 & r11 & r12 & y & r20 & r21 & r22 & z
        & -> & _).
  rewrite rot_symb_mk4. unfold T6e. rewrite !matmul_mk4, cos_0, sin_0.
  unfold translation, z_axis, entry, mk4. cbn [nth].
  repeat split; try (repeat (apply f_equal2; [ring|]); reflexivity).
  rows4; rows4; ring.
Qed.

Lemma chain_turn_base (a q1 q2 q3 q4 q5 q6 : R) :
  chain (a + q1) q2 q3 q4 q5 q6 =
  map (matmul (rot_symb Ax_z a)) (chain q1 q2 q3 q4 q5 q6).
Proof.
  destruct (closed_table_turn a q1) as (E & _).
  destruct (T_closed_shape q1) as (S1 & _).
  destruct (T_closed_shape q2) as (_ & S2 & _).
  destruct (T_closed_shape q3) as (_ & _ & S3 & _).
  destruct (T_closed_shape q4) as (_ & _ & _ & S4 & _).
  destruct (T_closed_shape q5) as (_ & _ & _ & _ & S5 & _).
  destruct (T_closed_shape q6) as (_ & _ & _ & _ & _ & S6).
  assert (SR : shape 4 4 (rot_symb Ax_z a))
    by apply homogeneous_shape, homogeneous_rot_symb.
  unfold chain. cbv zeta. cbn [map]. rewrite E.
  rewrite !matmul_assoc4 by (repeat apply matmul_shape4; assumption).
  reflexivity.
Qed.

(** X9.  The first joint turns the whole arm about the world z-axis: adding
    [a] to it multiplies every frame on the left by the rotation about z by
    [a]; the height of the end effector does not change. *)
Theorem first_joint_turns_the_arm (a q1 q2 q3 q4 q5 q6 : R) :
  fk_full [a + q1; q2; q3; q4; q5; q6] =
  map (matmul (rot_symb Ax_z a)) (fk_full [q1; q2; q3; q4; q5; q6]) /\
  fk_ee [a + q1; q2; q3; q4; q5; q6] =
  matmul (rot_symb Ax_z a) (fk_ee [q1; q2; q3; q4; q5; q6]) /\
  entry (fk_ee [a + q1; q2; q3; q4; q5; q6]) 2 3 =
  entry (fk_ee [q1; q2; q3; q4; q5; q6]) 2 3.
Proof.
  unfold fk_full. rewrite !get_fk_full_six, !fk_ee_six, chain_turn_base.
  split; [reflexivity|].
  assert (E : nth 5 (map (matmul (rot_symb Ax_z a))
                         (chain q1 q2 q3 q4 q5 q6)) [] =
              matmul (rot_symb Ax_z a) (nth 5 (chain q1 q2 q3 q4 q5 q6) []))
    by reflexivity.
  rewrite E. split; [reflexivity|].
  pose proof (chain_nth_homogeneous q1 q2 q3 q4 q5 q6 5 ltac:(lia)) as H6.
  destruct (homogeneous_inv _ H6)
    as (r00 & r01 & r02 & x & r10 & r11 & r12 & y & r20 & r21 & r22 & z
        & -> & _).
  rewrite rot_symb_mk4, matmul_mk4. unfold entry, mk4. cbn [nth]. ring.
Qed.

Lemma getlast_last {A : Type} (l : list A) (d : A) :
  l <> [] -> getlast l = Ok (last l d).
Proof.
  intros H. destruct (exists_last H) as (l' & a & ->).
  unfold getlast. rewrite rev_app_distr, last_last. reflexivity.
Qed.

Lemma last_in_forall {A : Type} (P : A -> Prop) (l : list A) (a d : A) :
  Forall P (a :: l) -> P (last (a :: l) d).
Proof.
  intros H. rewrite Forall_forall in H. apply H.
  destruct (exists_last (l := a :: l) ltac:(discriminate)) as (l' & x & E).
  rewrite E, last_last. rewrite <- E at 1. rewrite E.
  apply in_or_app. right. left. reflexivity.
Qed.

Lemma base_default_homogeneous : homogeneous base_default.
Proof. exact (homogeneous_trans_symb Ax_x 0). Qed.

Lemma jacobian_long (frames : list mat) :
  Forall (shape 4 4) frames -> (5 <= length frames)%nat ->
  jacobian frames = Ok (spec_jacobian (base_default :: frames)).
Proof.
  intros HF HL. unfold jacobian. cbv zeta.
  assert (HB : shape 4 4 base_default)
    by apply homogeneous_shape, base_default_homogeneous.
  assert (Hee : shape 4 4 (last (base_default :: frames) []))
    by (apply last_in_forall; constructor; assumption).
  rewrite (@getlast_last mat _ []) by discriminate. cbn [bind].
  unfold spec_jacobian, spec_column. cbv zeta.
  remember (last (base_default :: frames) []) as ee eqn:Eee. clear Eee.
  do 5 (destruct frames as [|? frames]; [cbn in HL; lia|]).
  repeat match goal with
         | H : Forall _ (_ :: _) |- _ => inversion H; subst; clear H
         end.
  repeat match goal with
         | H : shape 4 4 ?M |- _ => is_var M; as_mk4 H
         end.
  reflexivity.
Qed.

Lemma jacobian_short (frames : list mat) :
  Forall (shape 4 4) frames -> (length frames < 5)%nat ->
  jacobian frames = Raise IndexError.
Proof.
  intros HF HL.
  do 5 (destruct frames as [|? frames];
        [repeat match goal with
                | H : Forall _ (_ :: _) |- _ => inversion H; subst; clear H
                end;
         repeat match goal with
                | H : shape 4 4 ?M |- _ => is_var M; as_mk4 H
                end;
         reflexivity|]).
  cbn in HL. lia.
Qed.

(** X10.  For 4x4 frames, the Jacobian raises [IndexError] when fewer than
    five frames are given; with five or more it returns a 6x6 matrix that
    only depends on the first five frames and on the last one. *)
Theorem jacobian_frame_count (frames : list mat) :
  Forall (shape 4 4) frames ->
  ((length frames < 5)%nat -> jacobian frames = Raise IndexError) /\
  ((5 <= length frames)%nat ->
   exists J,
     jacobian frames = Ok J /\ shape 6 6 J /\
     jacobian (firstn 5 frames ++ [last frames []]) = Ok J).
Proof.
  intros HF. split; [apply jacobian_short; exact HF|].
  intros HL. exists (spec_jacobian (base_default :: frames)).
  split; [apply jacobian_long; assumption|].
  split; [apply spec_jacobian_shape|].
  do 5 (destruct frames as [|? frames]; [cbn in HL; lia|]).
  cbn [firstn app].
  assert (HE : shape 4 4 (last (m :: m0 :: m1 :: m2 :: m3 :: frames) []))
    by (apply last_in_forall; exact HF).
  rewrite jacobian_long.
  - unfold spec_jacobian, spec_column. cbv zeta.
    assert (E : last (base_default :: m :: m0 :: m1 :: m2 :: m3 ::
                        [last (m :: m0 :: m1 :: m2 :: m3 :: frames) []]) [] =
                last (base_default :: m :: m0 :: m1 :: m2 :: m3 :: frames) [])
      by reflexivity.
    rewrite E. reflexivity.
  - repeat match goal with
           | H : Forall _ (_ :: _) |- _ => inversion H; subst; clear H
           end.
    repeat (apply Forall_cons; [assumption|]). apply Forall_nil.
  - cbn. lia.
Qed.

(** X11.  For five or more 4x4 frames the first column of the Jacobian is
    [(-y, x, 0, 0, 0, 1)], where [(x, y, z)] is the position of the last
    frame: the first joint turns about the world z-axis. *)
Theorem jacobian_first_column (frames : list mat) :
  Forall (shape 4 4) frames -> (5 <= length frames)%nat ->
  exists J,
    jacobian frames = Ok J /\
    column J 0 =
    [- entry (last frames []) 1 3; entry (last frames []) 0 3; 0; 0; 0; 1].
Proof.
  intros HF HL. exists (spec_jacobian (base_default :: frames)).
  split; [apply jacobian_long; assumption|].
  rewrite spec_jacobian_column by lia.
  destruct frames as [|f frames]; [cbn in HL; lia|].
  assert (E : last (base_default :: f :: frames) [] = last (f :: frames) [])
    by reflexivity.
  unfold spec_column. cbv zeta. rewrite E.
  set (ee := last (f :: frames) []).
  unfold base_default, dim_h. rewrite eye4_mk4.
  unfold cross3, vminus, z_axis, translation, entry, mk4.
  cbn [nth combine map fst snd app].
  repeat (apply f_equal2; [ring|]). reflexivity.
Qed.

Lemma jacobian_first_column_witness :
  Forall (shape 4 4) (chain 0 0 0 0 0 0) /\
  (5 <= length (chain 0 0 0 0 0 0))%nat /\
  exists J,
    jacobian (chain 0 0 0 0 0 0) = Ok J /\
    column J 0 =
    [- entry (last (chain 0 0 0 0 0 0) []) 1 3;
     entry (last (chain 0 0 0 0 0 0) []) 0 3; 0; 0; 0; 1].
Proof.
  assert (H2 : (5 <= length (chain 0 0 0 0 0 0))%nat) by (cbn; lia).
  split; [apply chain_shape|]. split; [exact H2|].
  exact (jacobian_first_column _ (chain_shape 0 0 0 0 0 0) H2).
Defined.

Lemma jacobian_frame_count_witness :
  Forall (shape 4 4) (chain 0 0 0 0 0 0) /\
  ((length (chain 0 0 0 0 0 0) < 5)%nat ->
   jacobian (chain 0 0 0 0 0 0) = Raise IndexError) /\
  ((5 <= length (chain 0 0 0 0 0 0))%nat ->
   exists J,
     jacobian (chain 0 0 0 0 0 0) = Ok J /\ shape 6 6 J /\
     jacobian (firstn 5 (chain 0 0 0 0 0 0) ++ [last (chain 0 0 0 0 0 0) []])
     = Ok J).
Proof.
  split; [apply chain_shape|].
  exact (jacobian_frame_count _ (chain_shape 0 0 0 0 0 0)).
Defined.

(** X12.  For every six joint values the sixth column of the Jacobian is
    [(0, 0, 0)] followed by the z-axis of the fifth frame: the last joint
    gives the end effector no linear velocity. *)
Theorem jacobian_sixth_column (q1 q2 q3 q4 q5 q6 : R) :
  exists frames J,
    get_fk_solution [q1; q2; q3; q4; q5; q6] "full" = Ok (Full frames) /\
    jacobian frames = Ok J /\
    column J 5 = [0; 0; 0] ++ z_axis (nth 4 frames []).
Proof.
  exists (chain q1 q2 q3 q4 q5 q6),
         (spec_jacobian (base_default :: chain q1 q2 q3 q4 q5 q6)).
  split; [apply get_fk_full_six|]. split; [apply jacobian_chain|].
  rewrite spec_jacobian_column by lia.
  pose proof (chain_nth_homogeneous q1 q2 q3 q4 q5 q6 4 ltac:(lia)) as H5.
  unfold spec_column, chain in *. cbv zeta in *. cbn [nth last] in *.
  set (F5 := matmul (matmul (matmul (matmul (T12 q1) (T23 q2)) (T34 q3))
                            (T45 q4)) (T56 q5)) in *.
  destruct (homogeneous_inv F5 H5)
    as (r00 & r01 & r02 & x & r10 & r11 & r12 & y & r20 & r21 & r22 & z
        & -> & _).
  unfold T6e. rewrite matmul_mk4.
  unfold cross3, vminus, z_axis, translation, entry, mk4.
  cbn [nth combine map fst snd app].
  repeat (apply f_equal2; [ring|]). reflexivity.
Qed.

(** X13.  For every six joint values, in every column of the Jacobian the
    angular part (rows 3-5) is a unit vector and the linear part (rows 0-2)
    is orthogonal to it. *)
Theorem jacobian_column_geometry (qs : vec) (i : nat) :
  length qs = 6%nat -> (i < 6)%nat ->
  exists frames J,
    get_fk_solution qs "full" = Ok (Full frames) /\
    jacobian frames = Ok J /\
    let c := column J i in
    nth 3 c 0 * nth 3 c 0 + nth 4 c 0 * nth 4 c 0 + nth 5 c 0 * nth 5 c 0 = 1 /\
    nth 0 c 0 * nth 3 c 0 + nth 1 c 0 * nth 4 c 0 + nth 2 c 0 * nth 5 c 0 = 0.
Proof.
  intros Hq Hi.
  destruct (vec6_inv qs Hq) as (q1 & q2 & q3 & q4 & q5 & q6 & ->).
  exists (chain q1 q2 q3 q4 q5 q6),
         (spec_jacobian (base_default :: chain q1 q2 q3 q4 q5 q6)).
  split; [apply get_fk_full_six|]. split; [apply jacobian_chain|].
  cbv zeta. rewrite spec_jacobian_column by exact Hi.
  assert (HF : homogeneous (nth i (base_default :: chain q1 q2 q3 q4 q5 q6) [])).
  { destruct i as [|i]; [apply base_default_homogeneous|].
    apply chain_nth_homogeneous. lia. }
  unfold spec_column. cbv zeta.
  set (ee := last (base_default :: chain q1 q2 q3 q4 q5 q6) []).
  destruct (homogeneous_inv _ HF)
    as (r00 & r01 & r02 & x & r10 & r11 & r12 & y & r20 & r21 & r22 & z
        & -> & HR).
  destruct (rotation_columns _ _ _ _ _ _ _ _ _ HR)
    as (_ & _ & (_ & _ & Hcol) & _).
  unfold cross3, vminus, z_axis, translation, entry, mk4.
  cbn [nth combine map fst snd app].
  split; [exact Hcol | ring].
Qed.

Lemma jacobian_column_geometry_witness :
  length input_initial = 6%nat /\ (2 < 6)%nat /\
  exists frames J,
    get_fk_solution input_initial "full" = Ok (Full frames) /\
    jacobian frames = Ok J /\
    let c := column J 2 in
    nth 3 c 0 * nth 3 c 0 + nth 4 c 0 * nth 4 c 0 + nth 5 c 0 * nth 5 c 0 = 1 /\
    nth 0 c 0 * nth 3 c 0 + nth 1 c 0 * nth 4 c 0 + nth 2 c 0 * nth 5 c 0 = 0.
Proof.
  split; [reflexivity|]. split; [lia|].
  exact (jacobian_column_geometry input_initial 2 eq_refl ltac:(lia)).
Defined.

Lemma mat_vec_shape (r c : nat) (J : mat) (v : vec) :
  shape r c J -> length v = c -> mat_vec J v = Ok (matvec J v).
Proof.
  intros [HL HF] Hv. unfold mat_vec.
  replace (forallb (fun row => Nat.eqb (length row) (length v)) J) with true;
    [reflexivity|].
  symmetry. apply forallb_forall. intros row Hin.
  rewrite Forall_forall in HF. rewrite (HF row Hin), Hv.
  apply Nat.eqb_refl.
Qed.

Lemma mat_vec_mismatch (r c : nat) (J : mat) (v : vec) :
  shape r c J -> (0 < r)%nat -> length v <> c -> mat_vec J v = Raise ValueError.
Proof.
  intros [HL HF] Hr Hv. unfold mat_vec.
  destruct J as [|row J]; [cbn in HL; lia|].
  inversion HF as [|x l Hrow Hrest].
  cbn [forallb].
  destruct (Nat.eqb_spec (length row) (length v)) as [E|E];
    [congruence|reflexivity].
Qed.

Lemma dotv_plus (row : vec) :
  forall u v, length u = length v ->
              dotv row (vplus u v) = dotv row u + dotv row v.
Proof.
  induction row as [|a row IH]; intros u v H; [cbn; ring|].
  destruct u as [|x u], v as [|y v]; try discriminate H.
  - cbn. ring.
  - cbn [vplus combine map fst snd dotv]. fold (vplus u v).
    rewrite IH by (cbn in H; lia). ring.
Qed.

Lemma dotv_scale (row : vec) (c : R) :
  forall u, dotv row (vscale u c) = dotv row u * c.
Proof.
  induction row as [|a row IH]; intros u; [cbn; ring|].
  destruct u as [|x u]; [cbn; ring|].
  cbn [vscale map dotv]. fold (vscale u c). rewrite IH. ring.
Qed.

Lemma matvec_plus (J : mat) (u v : vec) :
  length u = length v ->
  matvec J (vplus u v) = vplus (matvec J u) (matvec J v).
Proof.
  intros H. unfold matvec.
  induction J as [|row J IH]; [reflexivity|].
  cbn [map]. rewrite IH, dotv_plus by exact H. reflexivity.
Qed.

Lemma matvec_scale (J : mat) (u : vec) (c : R) :
  matvec J (vscale u c) = vscale (matvec J u) c.
Proof.
  unfold matvec, vscale. rewrite map_map.
  apply map_ext. intros row. apply (dotv_scale row c u).
Qed.

(** X14.  For a matrix of [r] rows and [c] columns and joint velocities of
    [c] entries, [cartesian_velocity] returns [r] entries and is linear: it
    maps a sum to the sum and a scaled velocity to the scaled result. *)
Theorem cartesian_velocity_linear (r c : nat) (J : mat) (u v : vec) (s : R) :
  shape r c J -> length u = c -> length v = c ->
  exists a b,
    cartesian_velocity J u = Ok a /\
    cartesian_velocity J v = Ok b /\
    length a = r /\
    cartesian_velocity J (vplus u v) = Ok (vplus a b) /\
    cartesian_velocity J (vscale u s) = Ok (vscale a s).
Proof.
  intros HS Hu Hv. exists (matvec J u), (matvec J v).
  unfold cartesian_velocity.
  rewrite !(mat_vec_shape r c J) by
    (try assumption; unfold vplus, vscale;
     rewrite ?length_map, ?length_combine; lia).
  split; [reflexivity|]. split; [reflexivity|].
  split; [unfold matvec; rewrite length_map; apply HS|].
  rewrite matvec_plus by congruence. rewrite matvec_scale.
  split; reflexivity.
Qed.

Lemma cartesian_velocity_linear_witness :
  shape 6 6 (spec_jacobian []) /\
  length input = 6%nat /\ length input_initial = 6%nat /\
  exists a b,
    cartesian_velocity (spec_jacobian []) input = Ok a /\
    cartesian_velocity (spec_jacobian []) input_initial = Ok b /\
    length a = 6%nat /\
    cartesian_velocity (spec_jacobian []) (vplus input input_initial)
    = Ok (vplus a b) /\
    cartesian_velocity (spec_jacobian []) (vscale input 2)
    = Ok (vscale a 2).
Proof.
  split; [apply spec_jacobian_shape|]. split; [reflexivity|].
  split; [reflexivity|].
  exact (cartesian_velocity_linear 6 6 (spec_jacobian []) input input_initial
           2 (spec_jacobian_shape []) eq_refl eq_refl).
Defined.

(** X15.  On the Jacobian of five or more 4x4 frames, [cartesian_velocity]
    returns six entries for a joint velocity of six entries and raises
    [ValueError] for any other length. *)
Theorem cartesian_velocity_shape (frames : list mat) (q_dot : vec) :
  Forall (shape 4 4) frames -> (5 <= length frames)%nat ->
  exists J,
    jacobian frames = Ok J /\
    (length q_dot = 6%nat ->
     exists v, cartesian_velocity J q_dot = Ok v /\ length v = 6%nat) /\
    (length q_dot <> 6%nat ->
     cartesian_velocity J q_dot = Raise ValueError).
Proof.
  intros HF HL. exists (spec_jacobian (base_default :: frames)).
  split; [apply jacobian_long; assumption|].
  pose proof (spec_jacobian_shape (base_default :: frames)) as HS.
  unfold cartesian_velocity. split.
  - intros Hq. rewrite (mat_vec_shape 6 6) by assumption.
    eexists. split; [reflexivity|]. unfold matvec. rewrite length_map.
    apply HS.
  - intros Hq. apply (mat_vec_mismatch 6 6); [exact HS | lia | exact Hq].
Qed.

Lemma cartesian_velocity_shape_witness :
  Forall (shape 4 4) (chain 0 0 0 0 0 0) /\
  (5 <= length (chain 0 0 0 0 0 0))%nat /\
  exists J,
    jacobian (chain 0 0 0 0 0 0) = Ok J /\
    (length [1; 2; 3] = 6%nat ->
     exists v, cartesian_velocity J [1; 2; 3] = Ok v /\ length v = 6%nat) /\
    (length [1; 2; 3] <> 6%nat ->
     cartesian_velocity J [1; 2; 3] = Raise ValueError).
Proof.
  assert (H2 : (5 <= length (chain 0 0 0 0 0 0))%nat) by (cbn; lia).
  split; [apply chain_shape|]. split; [exact H2|].
  exact (cartesian_velocity_shape _ [1; 2; 3] (chain_shape 0 0 0 0 0 0) H2).
Defined.

(** X16.  The tolerance test [eq] of the script is reflexive and symmetric,
    and it bounds the distance by [1e-9], but it is not transitive. *)
Theorem eq_eps_relation :
  (forall a, eq_eps a a = true) /\
  (forall a b, eq_eps a b = eq_eps b a) /\
  (forall a b, eq_eps a b = true -> Rabs (a - b) < 1 / 1000000000) /\
  (exists a b c,
      eq_eps a b = true /\ eq_eps b c = true /\ eq_eps a c = false).
Proof.
  split; [|split; [|split]].
  - intros a. apply eq_eps_true. rewrite Rminus_diag, Rabs_R0. apply eps_pos.
  - intros a b. unfold eq_eps. rewrite (Rabs_minus_sym a b). reflexivity.
  - intros a b H. apply eq_eps_true in H. unfold eps in H. lra.
  - exists 0, (6 / 10000000000), (12 / 10000000000).
    split; [|split].
    + apply eq_eps_true. rewrite Rabs_left by lra. unfold eps. lra.
    + apply eq_eps_true. rewrite Rabs_left by lra. unfold eps. lra.
    + apply eq_eps_false. rewrite Rabs_left by lra. unfold eps. lra.
Qed.

Lemma cos_pos_range (a : R) :
  - PI < a <= PI -> 0 < cos a -> - (PI / 2) < a < PI / 2.
Proof.
  intros [Hlo Hhi] Hc. pose proof PI_RGT_0 as HPI. split.
  - destruct (Rlt_dec (- (PI / 2)) a) as [H|H]; [exact H|].
    assert (cos (- a) <= 0) by (apply cos_le_0; lra).
    rewrite cos_neg in *. lra.
  - destruct (Rlt_dec a (PI / 2)) as [H|H]; [exact H|].
    assert (cos a <= 0) by (apply cos_le_0; lra). lra.
Qed.

Lemma cos_neg_range (a : R) :
  - PI < a <= PI -> cos a < 0 -> a < - (PI / 2) \/ PI / 2 < a.
Proof.
  intros [Hlo Hhi] Hc.
  destruct (Rlt_dec a (- (PI / 2))) as [H|H]; [left; exact H|].
  destruct (Rlt_dec (PI / 2) a) as [H'|H']; [right; exact H'|].
  assert (0 <= cos a) by (apply cos_ge_0; lra). lra.
Qed.

Lemma cos_zero_range (a : R) :
  - PI < a <= PI -> cos a = 0 -> a = - (PI / 2) \/ a = PI / 2.
Proof.
  intros [Hlo Hhi] Hc. pose proof PI_RGT_0 as HPI.
  destruct (Rtotal_order a (- (PI / 2))) as [H|[H|H]]; [|left; exact H|].
  - assert (cos (- a) < 0) by (apply cos_lt_0; lra).
    rewrite cos_neg in *. lra.
  - destruct (Rtotal_order a (PI / 2)) as [H'|[H'|H']]; [|right; exact H'|].
    + assert (0 < cos a) by (apply cos_gt_0; lra). lra.
    + assert (cos a < 0) by (apply cos_lt_0; lra). lra.
Qed.

Lemma tan_ratio (r a : R) :
  0 < r -> cos a <> 0 -> r * sin a / (r * cos a) = tan a.
Proof. intros Hr Hc. unfold tan. field. split; lra. Qed.

Lemma tan_minus_PI (a : R) : cos a <> 0 -> tan (a - PI) = tan a.
Proof.
  intros Hc. unfold tan. rewrite sin_minus_PI, cos_minus_PI. field. exact Hc.
Qed.

Lemma tan_plus_PI (a : R) : cos a <> 0 -> tan (a + PI) = tan a.
Proof.
  intros Hc. unfold tan. rewrite neg_sin, neg_cos. field. exact Hc.
Qed.

(** [arctan2] inverts the polar form on [(-PI, PI]]. *)
Lemma arctan2_sin_cos (r a : R) :
  0 < r -> - PI < a <= PI -> arctan2 (r * sin a) (r * cos a) = a.
Proof.
  intros Hr Ha. pose proof PI_RGT_0 as HPI.
  unfold arctan2.
  destruct (Rlt_dec 0 (r * cos a)) as [Hx|Hx].
  - assert (Hc : 0 < cos a) by nra.
    rewrite tan_ratio by lra. apply atan_tan.
    now apply cos_pos_range.
  - destruct (Rlt_dec (r * cos a) 0) as [Hx'|Hx'].
    + assert (Hc : cos a < 0) by nra.
      rewrite tan_ratio by lra.
      destruct (cos_neg_range a Ha Hc) as [Hlow|Hhigh].
      * (* a in (-PI, -PI/2): the sine is negative *)
        assert (Hs : sin a < 0) by (apply sin_lt_0_var; lra).
        destruct (Rle_dec 0 (r * sin a)) as [Hy|Hy]; [nra|].
        rewrite <- (tan_plus_PI a) by lra.
        rewrite atan_tan by lra. ring.
      * (* a in (PI/2, PI]: the sine is not negative *)
        assert (Hs : 0 <= sin a) by (apply sin_ge_0; lra).
        destruct (Rle_dec 0 (r * sin a)) as [Hy|Hy]; [|nra].
        rewrite <- (tan_minus_PI a) by lra.
        rewrite atan_tan by lra. ring.
    + assert (Hc : cos a = 0) by nra.
      destruct (cos_zero_range a Ha Hc) as [E|E]; rewrite E.
      * rewrite sin_neg, sin_PI2.
        destruct (Rlt_dec 0 _); [lra|].
        destruct (Rlt_dec _ 0); [reflexivity|lra].
      * rewrite sin_PI2.
        destruct (Rlt_dec 0 _); [reflexivity|lra].
Qed.

Lemma pose_transform_closed (x y z a1 a2 a3 : R) :
  pose_transform x y z a1 a2 a3 =
  mk4 (cos a2 * cos a3) (- cos a2 * sin a3) (sin a2) x
      (cos a1 * sin a3 + sin a1 * sin a2 * cos a3)
      (cos a1 * cos a3 - sin a1 * sin a2 * sin a3)
      (- sin a1 * cos a2) y
      (sin a1 * sin a3 - cos a1 * sin a2 * cos a3)
      (sin a1 * cos a3 + cos a1 * sin a2 * sin a3)
      (cos a1 * cos a2) z
      0 0 0 1.
Proof.
  unfold pose_transform, compose_T_symb.
  cbn [map get_T running_product].
  rewrite !trans_symb_mk4, !rot_symb_mk4, !matmul_mk4. f_equal; ring.
Qed.

Lemma half_turn_spec (a : R) :
  - PI < a <= PI ->
  - PI < half_turn a <= PI /\
  cos (half_turn a) = - cos a /\ sin (half_turn a) = - sin a.
Proof.
  intros Ha. unfold half_turn.
  destruct (Rle_dec a 0).
  - rewrite neg_cos, neg_sin. repeat split; lra.
  - rewrite cos_minus_PI, sin_minus_PI. repeat split; lra.
Qed.

Lemma supplement_spec (a : R) :
  - (PI / 2) < a < PI / 2 ->
  - PI < supplement a <= PI /\
  cos (supplement a) = - cos a /\ sin (supplement a) = sin a.
Proof.
  intros Ha. pose proof PI_RGT_0 as HPI. unfold supplement.
  destruct (Rle_dec 0 a).
  - rewrite cos_minus, sin_minus, cos_PI, sin_PI. repeat split; lra || ring.
  - replace (- PI - a) with (- (a + PI)) by ring.
    rewrite cos_neg, sin_neg, neg_cos, neg_sin. repeat split; lra || ring.
Qed.

Lemma arctan2_sin_cos_unit (a : R) :
  - PI < a <= PI -> arctan2 (sin a) (cos a) = a.
Proof.
  intros Ha. rewrite <- (arctan2_sin_cos 1 a ltac:(lra) Ha) at 3.
  rewrite !Rmult_1_l. reflexivity.
Qed.

(** A matrix whose entries are those of the rotation about x, y, z by
    [g1], [g2], [g3] is decomposed into these angles by the branch whose sign
    is that of [cos g2]. *)
Lemma code_angles_recover (W : mat) (m2 g1 g2 g3 : R) :
  - PI < g1 <= PI -> - PI < g2 <= PI -> - PI < g3 <= PI ->
  0 < m2 * cos g2 ->
  entry W 0 0 = cos g2 * cos g3 ->
  entry W 0 1 = - cos g2 * sin g3 ->
  entry W 0 2 = sin g2 ->
  entry W 1 2 = - sin g1 * cos g2 ->
  entry W 2 2 = cos g1 * cos g2 ->
  code_angles W m2 = [g1; g2; g3].
Proof.
  intros H1 H2 H3 Hm E00 E01 E02 E12 E22.
  assert (Hc2 : cos g2 <> 0) by nra.
  unfold code_angles. rewrite E00, E01, E02, E12, E22.
  replace (- (- cos g2 * sin g3) * m2) with (m2 * cos g2 * sin g3) by ring.
  replace (cos g2 * cos g3 * m2) with (m2 * cos g2 * cos g3) by ring.
  rewrite (arctan2_sin_cos (m2 * cos g2) g3 Hm H3). cbv zeta.
  assert (Q1 : forall u, u = cos g2 ->
                 [arctan2 (- (- sin g1 * cos g2) / cos (arctan2 (sin g2) u))
                          (cos g1 * cos g2 / cos (arctan2 (sin g2) u));
                  arctan2 (sin g2) u; g3] = [g1; g2; g3]).
  { intros u ->.
    rewrite (arctan2_sin_cos_unit g2 H2).
    replace (- (- sin g1 * cos g2) / cos g2) with (sin g1)
      by (field; exact Hc2).
    replace (cos g1 * cos g2 / cos g2) with (cos g1)
      by (field; exact Hc2).
    rewrite (arctan2_sin_cos_unit g1 H1). reflexivity. }
  destruct (eq_eps (cos g3) 0) eqn:Hband; cbn [negb].
  - apply Q1. apply eq_eps_true in Hband. rewrite Rminus_0_r in Hband.
    destruct eps_pos as [_ He].
    destruct (Rabs_def2 _ _ Hband) as [Hlo Hhi].
    pose proof (sin_cos_sq g3) as Hsc.
    assert (Hs : sin g3 <> 0) by nra.
    field. exact Hs.
  - apply Q1. apply eq_eps_false in Hband. rewrite Rminus_0_r in Hband.
    destruct eps_pos as [He _].
    assert (Hc : cos g3 <> 0).
    { intros E. rewrite E, Rabs_R0 in Hband. lra. }
    field. exact Hc.
Qed.

Lemma pose_transform_entries (x y z a1 a2 a3 : R) :
  let T := pose_transform x y z a1 a2 a3 in
  shape 4 4 T /\
  translation T = [x; y; z] /\
  entry T 0 0 = cos a2 * cos a3 /\
  entry T 0 1 = - cos a2 * sin a3 /\
  entry T 0 2 = sin a2 /\
  entry T 1 2 = - sin a1 * cos a2 /\
  entry T 2 2 = cos a1 * cos a2.
Proof.
  cbv zeta. rewrite pose_transform_closed.
  split; [apply shape_mk4|]. repeat split; reflexivity.
Qed.

(** X17.  Decomposition inverts composition: for a translation [(x, y, z)]
    followed by rotations about x, y, z by [a1], [a2], [a3], with [a1] and
    [a3] in [(-pi, pi]], [a2] in [(-pi/2, pi/2)] and [|sin a2| >= eps], the
    second candidate of the decomposition is [(x, y, z, a1, a2, a3)]. *)
Theorem decompose_recovers_pose (x y z a1 a2 a3 : R) :
  - PI < a1 <= PI -> - (PI / 2) < a2 < PI / 2 -> - PI < a3 <= PI ->
  eps <= Rabs (sin a2) ->
  exists c0,
    decompose_transformation (pose_transform x y z a1 a2 a3) =
    Ok [c0; [x; y; z; a1; a2; a3]].
Proof.
  intros H1 H2 H3 Hnd. pose proof PI_RGT_0 as HPI.
  destruct (pose_transform_entries x y z a1 a2 a3)
    as (HS & Ht & E00 & E01 & E02 & E12 & E22).
  set (T := pose_transform x y z a1 a2 a3) in *.
  rewrite (decompose_ok 4 4 T HS) by lia.
  replace (degenerate T) with false
    by (symmetry; apply degenerate_false; rewrite E02; exact Hnd).
  rewrite Ht.
  rewrite (code_angles_recover T 1 a1 a2 a3); try assumption; try lra.
  - eexists. reflexivity.
  - assert (0 < cos a2) by (apply cos_gt_0; lra). lra.
Qed.

Lemma decompose_recovers_pose_witness :
  - PI < 0 <= PI /\ - (PI / 2) < PI / 6 < PI / 2 /\ - PI < 0 <= PI /\
  eps <= Rabs (sin (PI / 6)) /\
  exists c0,
    decompose_transformation (pose_transform 1 2 3 0 (PI / 6) 0) =
    Ok [c0; [1; 2; 3; 0; PI / 6; 0]].
Proof.
  pose proof PI_RGT_0 as HPI.
  assert (H1 : - PI < 0 <= PI) by lra.
  assert (H2 : - (PI / 2) < PI / 6 < PI / 2) by lra.
  assert (H4 : eps <= Rabs (sin (PI / 6))).
  { rewrite sin_PI6, Rabs_pos_eq by lra. unfold eps. lra. }
  split; [exact H1|]. split; [exact H2|]. split; [exact H1|].
  split; [exact H4|].
  exact (decompose_recovers_pose 1 2 3 0 (PI / 6) 0 H1 H2 H1 H4).
Defined.

(** X18.  Under the same conditions the first candidate is the other
    solution: [a1] and [a3] moved by half a turn and [a2] replaced by its
    supplement; composing that candidate gives the same transform. *)
Theorem decompose_other_branch (x y z a1 a2 a3 : R) :
  - PI < a1 <= PI -> - (PI / 2) < a2 < PI / 2 -> - PI < a3 <= PI ->
  eps <= Rabs (sin a2) ->
  exists c1,
    decompose_transformation (pose_transform x y z a1 a2 a3) =
    Ok [[x; y; z; half_turn a1; supplement a2; half_turn a3]; c1] /\
    pose_transform x y z (half_turn a1) (supplement a2) (half_turn a3) =
    pose_transform x y z a1 a2 a3.
Proof.
  intros H1 H2 H3 Hnd. pose proof PI_RGT_0 as HPI.
  destruct (pose_transform_entries x y z a1 a2 a3)
    as (HS & Ht & E00 & E01 & E02 & E12 & E22).
  destruct (half_turn_spec a1 H1) as (R1 & C1 & S1).
  destruct (supplement_spec a2 H2) as (R2 & C2 & S2).
  destruct (half_turn_spec a3 H3) as (R3 & C3 & S3).
  assert (Hc : 0 < cos a2) by (apply cos_gt_0; lra).
  set (T := pose_transform x y z a1 a2 a3) in *.
  rewrite (decompose_ok 4 4 T HS) by lia.
  replace (degenerate T) with false
    by (symmetry; apply degenerate_false; rewrite E02; exact Hnd).
  rewrite Ht.
  rewrite (code_angles_recover T (-1) (half_turn a1) (supplement a2)
             (half_turn a3)); try assumption.
  - eexists. split; [reflexivity|].
    unfold T. rewrite !pose_transform_closed, C1, S1, C2, S2, C3, S3.
    f_equal; ring.
  - rewrite C2. lra.
  - rewrite E00, C2, C3. ring.
  - rewrite E01, C2, S3. ring.
  - rewrite E02, S2. reflexivity.
  - rewrite E12, S1, C2. ring.
  - rewrite E22, C1, C2. ring.
Qed.

Lemma decompose_other_branch_witness :
  - PI < 0 <= PI /\ - (PI / 2) < PI / 6 < PI / 2 /\ - PI < 0 <= PI /\
  eps <= Rabs (sin (PI / 6)) /\
  exists c1,
    decompose_transformation (pose_transform 1 2 3 0 (PI / 6) 0) =
    Ok [[1; 2; 3; half_turn 0; supplement (PI / 6); half_turn 0]; c1] /\
    pose_transform 1 2 3 (half_turn 0) (supplement (PI / 6)) (half_turn 0) =
    pose_transform 1 2 3 0 (PI / 6) 0.
Proof.
  pose proof PI_RGT_0 as HPI.
  assert (H1 : - PI < 0 <= PI) by lra.
  assert (H2 : - (PI / 2) < PI / 6 < PI / 2) by lra.
  assert (H4 : eps <= Rabs (sin (PI / 6))).
  { rewrite sin_PI6, Rabs_pos_eq by lra. unfold eps. lra. }
  split; [exact H1|]. split; [exact H2|]. split; [exact H1|].
  split; [exact H4|].
  exact (decompose_other_branch 1 2 3 0 (PI / 6) 0 H1 H2 H1 H4).
Defined.

Lemma dotv_no_error (c : R) (u : vec) :
  forall row, dotv row (vscale (vminus u u) c) = 0.
Proof.
  induction u as [|a u IH]; intros row.
  - destruct row; reflexivity.
  - destruct row as [|b row]; [reflexivity|].
    cbn [vminus combine map fst snd vscale dotv].
    fold (vminus u u). fold (vscale (vminus u u) c).
    rewrite IH. ring.
Qed.

(** X19.  The target is an equilibrium: at a configuration of six joint
    values whose end-effector frame is not degenerate, the vector field with
    the first candidate of that frame as its target is the zero vector. *)
Theorem state_space_equilibrium (qs : vec) (t : R) :
  length qs = 6%nat ->
  eps <= Rabs (entry (fk_ee qs) 0 2) ->
  exists cands xi,
    decompose_transformation (fk_ee qs) = Ok cands /\
    getitem cands 0 = Ok xi /\
    state_space xi qs t = Ok [0; 0; 0; 0; 0; 0].
Proof.
  intros Hq Hnd.
  destruct (vec6_inv qs Hq) as (q1 & q2 & q3 & q4 & q5 & q6 & ->).
  pose proof (fk_ee_shape q1 q2 q3 q4 q5 q6) as HS.
  apply degenerate_false in Hnd.
  pose proof (decompose_ok 4 4 _ HS ltac:(lia) ltac:(lia)) as HD.
  rewrite Hnd in HD.
  set (T := fk_ee [q1; q2; q3; q4; q5; q6]) in *.
  set (xi := translation T ++ code_angles T (-1)) in *.
  exists [xi; translation T ++ code_angles T 1], xi.
  split; [exact HD|]. split; [reflexivity|].
  assert (HL : length xi = 6%nat)
    by (unfold xi; rewrite length_app, code_angles_length; reflexivity).
  rewrite state_space_six. fold T. rewrite HD.
  cbn [bind getitem nth_error].
  unfold vsub. rewrite Nat.eqb_refl. cbn [bind].
  fold (vminus xi xi).
  rewrite (mat_vec_shape 6 6);
    [| apply spec_jacobian_shape
     | unfold vscale, vminus; rewrite !length_map, length_combine, HL;
       reflexivity].
  unfold matvec.
  rewrite (map_ext _ (fun _ => 0) (dotv_no_error k xi)).
  reflexivity.
Qed.

Lemma state_space_equilibrium_witness :
  length input_initial = 6%nat /\
  eps <= Rabs (entry (fk_ee input_initial) 0 2) /\
  exists cands xi,
    decompose_transformation (fk_ee input_initial) = Ok cands /\
    getitem cands 0 = Ok xi /\
    state_space xi input_initial 0 = Ok [0; 0; 0; 0; 0; 0].
Proof.
  assert (Hnd : eps <= Rabs (entry (fk_ee input_initial) 0 2)).
  { rewrite fk_ee_zero_w02, Rabs_R1. unfold eps. lra. }
  split; [reflexivity|]. split; [exact Hnd|].
  exact (state_space_equilibrium input_initial 0 eq_refl Hnd).
Defined.

(** X20.  The Jacobian does not depend on the sixth joint angle. *)
Theorem jacobian_ignores_sixth_joint (q1 q2 q3 q4 q5 q6 q6' : R) :
  exists J,
    jacobian (fk_full [q1; q2; q3; q4; q5; q6]) = Ok J /\
    jacobian (fk_full [q1; q2; q3; q4; q5; q6']) = Ok J.
Proof.
  exists (spec_jacobian (base_default :: chain q1 q2 q3 q4 q5 q6)).
  unfold fk_full. rewrite !get_fk_full_six, !jacobian_chain.
  split; reflexivity.
Qed.

(** X21.  The vector field raises [IndexError] on a state of fewer than
    six entries and reads only the first six entries of a longer one. *)
Theorem state_space_state_length (x1 y : vec) (t : R) :
  ((length y < 6)%nat -> state_space x1 y t = Raise IndexError) /\
  ((6 <= length y)%nat ->
   state_space x1 y t = state_space x1 (firstn 6 y) t).
Proof.
  unfold state_space. split; intros H.
  - rewrite fk_short_vector by exact H. reflexivity.
  - destruct (fk_long_vector y "full" H) as [-> _]. reflexivity.
Qed.

(** X22.  A pose with (almost) no rotation about y is reported without
    angles: when [|sin a2| < eps], whatever [a1] and [a3] are, both candidates
    of the decomposition are the translation alone. *)
Theorem decompose_flat_pitch (x y z a1 a2 a3 : R) :
  Rabs (sin a2) < eps ->
  decompose_transformation (pose_transform x y z a1 a2 a3) =
  Ok [[x; y; z]; [x; y; z]].
Proof.
  intros Hd.
  destruct (pose_transform_entries x y z a1 a2 a3)
    as (HS & Ht & _ & _ & E02 & _).
  set (T := pose_transform x y z a1 a2 a3) in *.
  rewrite (decompose_ok 4 4 T HS) by lia.
  replace (degenerate T) with true
    by (symmetry; apply degenerate_true; rewrite E02; exact Hd).
  rewrite Ht. reflexivity.
Qed.

Lemma decompose_flat_pitch_witness :
  Rabs (sin 0) < eps /\
  decompose_transformation (pose_transform 1 2 3 (PI / 6) 0 (PI / 3)) =
  Ok [[1; 2; 3]; [1; 2; 3]].
Proof.
  assert (H : Rabs (sin 0) < eps)
    by (rewrite sin_0, Rabs_R0; unfold eps; lra).
  split; [exact H|].
  exact (decompose_flat_pitch 1 2 3 (PI / 6) 0 (PI / 3) H).
Defined.

Lemma rotation_preserves_norm r00 r01 r02 r10 r11 r12 r20 r21 r22 t0 t1 t2 :
  is_rotation (mk3 r00 r01 r02 r10 r11 r12 r20 r21 r22) ->
  (r00 * t0 + r01 * t1 + r02 * t2) * (r00 * t0 + r01 * t1 + r02 * t2)
  + (r10 * t0 + r11 * t1 + r12 * t2) * (r10 * t0 + r11 * t1 + r12 * t2)
  + (r20 * t0 + r21 * t1 + r22 * t2) * (r20 * t0 + r21 * t1 + r22 * t2)
  = t0 * t0 + t1 * t1 + t2 * t2.
Proof.
  intros HR.
  destruct (rotation_columns _ _ _ _ _ _ _ _ _ HR)
    as ((G00 & G01 & G02) & (_ & G11 & G12) & (_ & _ & G22) & _).
  replace ((r00 * t0 + r01 * t1 + r02 * t2) * (r00 * t0 + r01 * t1 + r02 * t2)
           + (r10 * t0 + r11 * t1 + r12 * t2) * (r10 * t0 + r11 * t1 + r12 * t2)
           + (r20 * t0 + r21 * t1 + r22 * t2) * (r20 * t0 + r21 * t1 + r22 * t2))
    with (t0 * t0 * (r00 * r00 + r10 * r10 + r20 * r20)
          + t1 * t1 * (r01 * r01 + r11 * r11 + r21 * r21)
          + t2 * t2 * (r02 * r02 + r12 * r12 + r22 * r22)
          + 2 * t0 * t1 * (r00 * r01 + r10 * r11 + r20 * r21)
          + 2 * t0 * t2 * (r00 * r02 + r10 * r12 + r20 * r22)
          + 2 * t1 * t2 * (r01 * r02 + r11 * r12 + r21 * r22)) by ring.
  rewrite G00, G01, G02, G11, G12, G22. ring.
Qed.

(** The origin moves by the length of the translation of the next
    transform. *)
Lemma step_distance (F : mat)
  b00 b01 b02 tx b10 b11 b12 ty b20 b21 b22 tz :
  homogeneous F ->
  dist2 (translation
           (matmul F (mk4 b00 b01 b02 tx b10 b11 b12 ty b20 b21 b22 tz
                          0 0 0 1)))
        (translation F)
  = tx * tx + ty * ty + tz * tz.
Proof.
  intros HF.
  destruct (homogeneous_inv F HF)
    as (r00 & r01 & r02 & x & r10 & r11 & r12 & y & r20 & r21 & r22 & z
        & -> & HR).
  rewrite matmul_mk4. unfold dist2, translation, entry, mk4. cbn [nth].
  rewrite <- (rotation_preserves_norm _ _ _ _ _ _ _ _ _ tx ty tz HR).
  ring.
Qed.

(** X23.  Forward kinematics keeps the link lengths: for every six joint
    values the squared distances between the origins of consecutive frames,
    from the base to the end effector, are
    [l1^2, l2^2, l3^2, l4^2, 0, (l5 + l6)^2]. *)
Theorem link_lengths_are_kept (qs : vec) :
  length qs = 6%nat ->
  let fks := base_default :: fk_full qs in
  map (fun i => dist2 (translation (nth (i + 1) fks []))
                      (translation (nth i fks [])))
      (seq 0 6)
  = [l1 * l1; l2 * l2; l3 * l3; l4 * l4; 0; (l5 + l6) * (l5 + l6)].
Proof.
  intros Hq. cbv zeta.
  destruct (vec6_inv qs Hq) as (q1 & q2 & q3 & q4 & q5 & q6 & ->).
  unfold fk_full. rewrite get_fk_full_six.
  pose proof (chain_nth_homogeneous q1 q2 q3 q4 q5 q6) as HC.
  pose proof (HC 0%nat ltac:(lia)) as H1. pose proof (HC 1%nat ltac:(lia)) as H2.
  pose proof (HC 2%nat ltac:(lia)) as H3. pose proof (HC 3%nat ltac:(lia)) as H4.
  pose proof (HC 4%nat ltac:(lia)) as H5. clear HC.
  pose proof base_default_homogeneous as H0.
  unfold chain in *. cbv zeta in *. cbn [seq map nth Nat.add] in *.
  rewrite <- (matmul_eye4_l (T12 q1)) at 1 by apply T_closed_shape.
  change (eye 4) with base_default.
  pose proof (sin_cos_sq q1) as S1. pose proof (sin_cos_sq q2) as S2.
  pose proof (sin_cos_sq q3) as S3. pose proof (sin_cos_sq q4) as S4.
  unfold T12 at 1, T23 at 1, T34 at 1, T45 at 1, T56 at 1, T6e at 1.
  rewrite !step_distance by assumption.
  unfold l1, l2, l3, l4, l5, l6, link_lengths. cbn [nth].
  repeat (apply f_equal2; [nra|]). reflexivity.
Qed.

Lemma link_lengths_are_kept_witness :
  length input_initial = 6%nat /\
  let fks := base_default :: fk_full input_initial in
  map (fun i => dist2 (translation (nth (i + 1) fks []))
                      (translation (nth i fks [])))
      (seq 0 6)
  = [l1 * l1; l2 * l2; l3 * l3; l4 * l4; 0; (l5 + l6) * (l5 + l6)].
Proof.
  split; [reflexivity|]. exact (link_lengths_are_kept input_initial eq_refl).
Defined.
